(** * HWComposer: display registry, hotplug resolution, vsync filtering and
    per-frame composition negotiation of SurfaceFlinger's DisplayHardware
    layer (services/surfaceflinger/DisplayHardware/HWComposer.cpp).

    The hardware composer device (Hwc2::Composer together with the
    HWC2::Display objects that forward to it) is an opaque, stateful service:
    it is the type class [Composer] below, over an abstract device state.
    Every call into it is recorded in the trace of the [World], so that the
    absence of a device call is a statement about the trace. *)

From Stdlib Require Import ZArith.
From stdpp Require Import base gmap strings.

Local Open Scope Z_scope.

Module HWC.

(** ** Data model *)

(** hal::Error *)
Inductive Error :=
  | NONE | BAD_CONFIG | BAD_DISPLAY | BAD_LAYER | BAD_PARAMETER
  | HAS_CHANGES | NO_RESOURCES | NOT_VALIDATED | UNSUPPORTED.

(** status_t values returned by HWComposer. *)
Inductive status := NO_ERROR | BAD_INDEX | BAD_VALUE | UNKNOWN_ERROR | INVALID_OPERATION.

Definition isNone (e : Error) : bool :=
  match e with NONE => true | _ => false end.

(** Modelled from the spec: hasChangesError (HWC2.h, not under src/), the
    device error code "has pending changes", which the fast path treats as
    success. *)
Definition hasChangesError (e : Error) : bool :=
  match e with HAS_CHANGES => true | _ => false end.

(** sp<Fence>: a null pointer, the Fence::NO_FENCE sentinel, or a fence
    backed by a file descriptor. *)
Inductive Fence := FenceNull | NO_FENCE | FenceFd (fd : Z).

(** FenceTime::SIGNAL_TIME_PENDING (INT64_MAX). *)
Definition SIGNAL_TIME_PENDING : Z := 2 ^ 63 - 1.

(** hal::DisplayType *)
Inductive DisplayType := PHYSICAL | VIRTUAL.

(** The HWC2::Display object owned by a display record. *)
Record HwcDisplay := mkHwcDisplay {
  hd_id : Z;              (* hal::HWDisplayId, getId() *)
  hd_type : DisplayType;
  hd_connected : bool     (* isConnected() / setConnected() *)
}.

Definition setConnected (c : bool) (d : HwcDisplay) : HwcDisplay :=
  mkHwcDisplay (hd_id d) (hd_type d) c.

(** hal::Vsync *)
Module Vsync.
Inductive t := INVALID | ENABLE | DISABLE.
End Vsync.

#[global] Instance Vsync_eq_dec : EqDecision Vsync.t.
Proof. solve_decision. Defined.

(** HWComposer::DeviceRequestedChanges *)
Record DeviceRequestedChanges := mkDeviceRequestedChanges {
  changedTypes : gmap Z Z;          (* HWC2::Layer* -> composition type *)
  displayRequests : Z;              (* hal::DisplayRequest flags *)
  layerRequests : gmap Z Z;         (* HWC2::Layer* -> layer request *)
  clientTargetProperty : Z * Z      (* pixel format, dataspace *)
}.

(** HWComposer::DisplayData; layers are identified by their HWC2::Layer*
    value, display handles (hal::HWDisplayId) and display identities
    (DisplayId::value) by integers. *)
Record DisplayData := mkDisplayData {
  isVirtual : bool;
  hwcDisplay : HwcDisplay;
  lastPresentFence : Fence;
  releaseFences : gmap Z Fence;
  validateWasSkipped : bool;
  presentError : Error;
  vsyncTraceToggle : bool;
  vsyncEnabled : Vsync.t;
  lastHwVsync : Z
}.

(** Modelled from the spec: the member initialisers of DisplayData
    (HWComposer.h, not under src/): a new record is not virtual, has no
    present fence and no release fences, has seen no vsync and has vsync
    disabled (hal::Vsync::DISABLE). [hd] is the
    HWC2::Display assigned right after the record is default-constructed. *)
Definition defaultDisplayData (hd : HwcDisplay) : DisplayData :=
  mkDisplayData false hd NO_FENCE ∅ false NONE false Vsync.DISABLE 0.

Definition set_isVirtual (b : bool) (r : DisplayData) : DisplayData :=
  mkDisplayData b (hwcDisplay r) (lastPresentFence r) (releaseFences r)
    (validateWasSkipped r) (presentError r) (vsyncTraceToggle r)
    (vsyncEnabled r) (lastHwVsync r).
Definition set_hwcDisplay (hd : HwcDisplay) (r : DisplayData) : DisplayData :=
  mkDisplayData (isVirtual r) hd (lastPresentFence r) (releaseFences r)
    (validateWasSkipped r) (presentError r) (vsyncTraceToggle r)
    (vsyncEnabled r) (lastHwVsync r).
Definition set_lastPresentFence (f : Fence) (r : DisplayData) : DisplayData :=
  mkDisplayData (isVirtual r) (hwcDisplay r) f (releaseFences r)
    (validateWasSkipped r) (presentError r) (vsyncTraceToggle r)
    (vsyncEnabled r) (lastHwVsync r).
Definition set_releaseFences (m : gmap Z Fence) (r : DisplayData) : DisplayData :=
  mkDisplayData (isVirtual r) (hwcDisplay r) (lastPresentFence r) m
    (validateWasSkipped r) (presentError r) (vsyncTraceToggle r)
    (vsyncEnabled r) (lastHwVsync r).
Definition set_validateWasSkipped (b : bool) (r : DisplayData) : DisplayData :=
  mkDisplayData (isVirtual r) (hwcDisplay r) (lastPresentFence r)
    (releaseFences r) b (presentError r) (vsyncTraceToggle r)
    (vsyncEnabled r) (lastHwVsync r).
Definition set_presentError (e : Error) (r : DisplayData) : DisplayData :=
  mkDisplayData (isVirtual r) (hwcDisplay r) (lastPresentFence r)
    (releaseFences r) (validateWasSkipped r) e (vsyncTraceToggle r)
    (vsyncEnabled r) (lastHwVsync r).
Definition set_vsyncTraceToggle (b : bool) (r : DisplayData) : DisplayData :=
  mkDisplayData (isVirtual r) (hwcDisplay r) (lastPresentFence r)
    (releaseFences r) (validateWasSkipped r) (presentError r) b
    (vsyncEnabled r) (lastHwVsync r).
Definition set_lastHwVsync (t : Z) (r : DisplayData) : DisplayData :=
  mkDisplayData (isVirtual r) (hwcDisplay r) (lastPresentFence r)
    (releaseFences r) (validateWasSkipped r) (presentError r)
    (vsyncTraceToggle r) (vsyncEnabled r) t.

(** The fields of impl::HWComposer the claims touch. *)
Record HWComposer := mkHWComposer {
  mDisplayData : gmap Z DisplayData;           (* HalDisplayId -> record *)
  mPhysicalDisplayIdMap : gmap Z Z;            (* HWDisplayId -> PhysicalDisplayId *)
  mInternalHwcDisplayId : option Z;
  mExternalHwcDisplayId : option Z;
  mHasMultiDisplaySupport : bool;
  mMaxVirtualDisplayDimension : Z;             (* size_t *)
  mUpdateDeviceProductInfoOnHotplugReconnect : bool
}.

Definition set_mDisplayData (m : gmap Z DisplayData) (s : HWComposer) : HWComposer :=
  mkHWComposer m (mPhysicalDisplayIdMap s) (mInternalHwcDisplayId s)
    (mExternalHwcDisplayId s) (mHasMultiDisplaySupport s)
    (mMaxVirtualDisplayDimension s) (mUpdateDeviceProductInfoOnHotplugReconnect s).
Definition set_mPhysicalDisplayIdMap (m : gmap Z Z) (s : HWComposer) : HWComposer :=
  mkHWComposer (mDisplayData s) m (mInternalHwcDisplayId s)
    (mExternalHwcDisplayId s) (mHasMultiDisplaySupport s)
    (mMaxVirtualDisplayDimension s) (mUpdateDeviceProductInfoOnHotplugReconnect s).
Definition set_mInternalHwcDisplayId (o : option Z) (s : HWComposer) : HWComposer :=
  mkHWComposer (mDisplayData s) (mPhysicalDisplayIdMap s) o
    (mExternalHwcDisplayId s) (mHasMultiDisplaySupport s)
    (mMaxVirtualDisplayDimension s) (mUpdateDeviceProductInfoOnHotplugReconnect s).
Definition set_mExternalHwcDisplayId (o : option Z) (s : HWComposer) : HWComposer :=
  mkHWComposer (mDisplayData s) (mPhysicalDisplayIdMap s) (mInternalHwcDisplayId s)
    o (mHasMultiDisplaySupport s)
    (mMaxVirtualDisplayDimension s) (mUpdateDeviceProductInfoOnHotplugReconnect s).
Definition set_mHasMultiDisplaySupport (b : bool) (s : HWComposer) : HWComposer :=
  mkHWComposer (mDisplayData s) (mPhysicalDisplayIdMap s) (mInternalHwcDisplayId s)
    (mExternalHwcDisplayId s) b
    (mMaxVirtualDisplayDimension s) (mUpdateDeviceProductInfoOnHotplugReconnect s).

(** DisplayIdentificationInfo; the product descriptor is kept opaque. *)
Record DisplayIdentificationInfo := mkDisplayIdentificationInfo {
  id : Z;
  name : string;
  deviceProductInfo : option (list Z)
}.

(** Modelled from the spec: LEGACY_DISPLAY_TYPE_PRIMARY and
    LEGACY_DISPLAY_TYPE_EXTERNAL (HWComposer.h, not under src/), the fixed
    primary/secondary ports of legacy addressing. *)
Definition LEGACY_DISPLAY_TYPE_PRIMARY : Z := 0.
Definition LEGACY_DISPLAY_TYPE_EXTERNAL : Z := 1.

(** Device calls, and the other observable effects (sleeping, tracing). *)
Inductive Event :=
  | EvGetDisplayIdentificationData (hwcDisplayId : Z)
  | EvCreateVirtualDisplay (width height : Z)
  | EvPresentOrValidate (hwcDisplayId : Z)
  | EvValidate (hwcDisplayId : Z)
  | EvGetReleaseFences (hwcDisplayId : Z)
  | EvGetChangedCompositionTypes (hwcDisplayId : Z)
  | EvGetRequests (hwcDisplayId : Z)
  | EvGetClientTargetProperty (hwcDisplayId : Z)
  | EvAcceptChanges (hwcDisplayId : Z)
  | EvPresent (hwcDisplayId : Z)
  | EvExecuteCommands
  | EvSetClientTarget (hwcDisplayId : Z)
  | EvSleepUntil (time : Z)
  | EvTraceInt (displayId : Z) (value : bool)          (* ATRACE_INT("HW_VSYNC_<id>") *)
  | EvTraceVsyncOn (displayId : Z) (value : bool).     (* ATRACE_INT("HW_VSYNC_ON_<id>") *)

Definition isDeviceCall (e : Event) : bool :=
  match e with EvSleepUntil _ | EvTraceInt _ _ | EvTraceVsyncOn _ _ => false | _ => true end.

Definition isPresentCall (e : Event) : bool :=
  match e with EvPresent _ => true | _ => false end.

Definition isAcceptChangesCall (e : Event) : bool :=
  match e with EvAcceptChanges _ => true | _ => false end.

(** The device: every operation takes the device state and returns its
    results (the error code and the final values of the out-parameters)
    and the new device state. *)
Class Composer (DS : Type) := {
  getDisplayIdentificationData_dev : DS -> Z -> (Error * Z * list Z) * DS;
  createVirtualDisplay_dev : DS -> Z -> Z -> Z -> option Z -> (Error * Z * Z) * DS;
  presentOrValidate_dev : DS -> Z -> (Error * Z * Z * Fence * Z) * DS;
  validate_dev : DS -> Z -> (Error * Z * Z) * DS;
  getReleaseFences_dev : DS -> Z -> (Error * gmap Z Fence) * DS;
  getChangedCompositionTypes_dev : DS -> Z -> (Error * gmap Z Z) * DS;
  getRequests_dev : DS -> Z -> (Error * Z * gmap Z Z) * DS;
  getClientTargetProperty_dev : DS -> Z -> (Error * (Z * Z)) * DS;
  acceptChanges_dev : DS -> Z -> Error * DS;
  present_dev : DS -> Z -> (Error * option Fence) * DS;
  executeCommands_dev : DS -> Error * DS;
  setClientTarget_dev : DS -> Z -> Z -> Z -> Fence -> Z -> Error * DS
}.

Section Embedding.

Context {DS : Type} `{Composer DS}.

Record World := mkWorld { hwc : HWComposer; dev : DS; trace : list Event }.

(** Result of running a step: it returns, or a LOG_FATAL_IF aborts. *)
Inductive Res (A : Type) := Ret (a : A) (w : World) | Fatal (w : World).
Arguments Ret {A}. Arguments Fatal {A}.

Definition M (A : Type) := World -> Res A.

Definition ret {A} (a : A) : M A := fun w => Ret a w.
Definition bind {A B} (m : M A) (k : A -> M B) : M B :=
  fun w => match m w with Ret a w' => k a w' | Fatal w' => Fatal w' end.
Definition fatal {A} : M A := fun w => Fatal w.

Local Notation "x <- m ;; k" := (bind m (fun x => k))
  (at level 100, m at next level, right associativity).
Local Notation "m ;;; k" := (bind m (fun _ => k))
  (at level 100, right associativity).

Definition getHwc : M HWComposer := fun w => Ret (hwc w) w.
Definition putHwc (s : HWComposer) : M unit :=
  fun w => Ret tt (mkWorld s (dev w) (trace w)).
Definition emit (e : Event) : M unit :=
  fun w => Ret tt (mkWorld (hwc w) (dev w) (e :: trace w)).
Definition devCall {R} (e : Event) (f : DS -> R * DS) : M R :=
  fun w => let '(r, d) := f (dev w) in Ret r (mkWorld (hwc w) d (e :: trace w)).

(** [mDisplayData[displayId]] updated through the reference, for a key that
    is present. *)
Definition modifyDisplayData (d : Z) (f : DisplayData -> DisplayData) : M unit :=
  s <- getHwc ;;
  match mDisplayData s !! d with
  | Some r => putHwc (set_mDisplayData (<[d := f r]> (mDisplayData s)) s)
  | None => ret tt
  end.

(** ** Display registry *)

(** std::optional::has_value *)
Definition has_value {A} (o : option A) : bool :=
  match o with Some _ => true | None => false end.

Definition lookupDisplay (s : HWComposer) (d : Z) : option DisplayData :=
  mDisplayData s !! d.

(** HWComposer::toPhysicalDisplayId *)
Definition toPhysicalDisplayId (s : HWComposer) (hwcDisplayId : Z) : option Z :=
  mPhysicalDisplayIdMap s !! hwcDisplayId.

(** HWComposer::fromPhysicalDisplayId *)
Definition fromPhysicalDisplayId (s : HWComposer) (d : Z) : option Z :=
  match mDisplayData s !! d with
  | Some r => if isVirtual r then None else Some (hd_id (hwcDisplay r))
  | None => None
  end.

(** HWComposer::isConnected *)
Definition isConnected (s : HWComposer) (d : Z) : bool :=
  match mDisplayData s !! d with
  | Some r => hd_connected (hwcDisplay r)
  | None => false
  end.

(** [auto& displayData = mDisplayData[displayId]; displayData.hwcDisplay = hd]:
    the existing record, or a default-constructed one, with a new display. *)
Definition recordWithDisplay (s : HWComposer) (d : Z) (hd : HwcDisplay) : DisplayData :=
  match mDisplayData s !! d with
  | Some r => set_hwcDisplay hd r
  | None => defaultDisplayData hd
  end.

(** ** Vsync filter: HWComposer::onVsync *)
Definition onVsync (hwcDisplayId timestamp : Z) : M bool :=
  s <- getHwc ;;
  match toPhysicalDisplayId s hwcDisplayId with
  | None => ret false
  | Some d =>
      match mDisplayData s !! d with
      | None => ret false
      | Some r =>
          if isVirtual r then fatal
          else if Z.eqb timestamp (lastHwVsync r) then ret false
          else
            modifyDisplayData d (set_lastHwVsync timestamp) ;;;
            emit (EvTraceInt d (vsyncTraceToggle r)) ;;;
            modifyDisplayData d (set_vsyncTraceToggle (negb (vsyncTraceToggle r))) ;;;
            ret true
      end
  end.

(** Modelled from the spec: ui::Size::isValid (libs/ui, not under src/), a
    non-degenerate resolution. *)
Definition sizeIsValid (width height : Z) : bool :=
  (0 <? width) && (0 <? height).

(** HWComposer::allocateVirtualDisplay; returns the boolean result and the
    pixel format left in [*format]. *)
Definition allocateVirtualDisplay (displayId width height format : Z)
    (mirror : option Z) : M (bool * Z) :=
  if negb (sizeIsValid width height) then ret (false, format)
  else
    let w := width mod 2 ^ 32 in
    let h := height mod 2 ^ 32 in
    s <- getHwc ;;
    if (0 <? mMaxVirtualDisplayDimension s) &&
       ((mMaxVirtualDisplayDimension s <? w) || (mMaxVirtualDisplayDimension s <? h))
    then ret (false, format)
    else
      let hwcMirrorId :=
        match mirror with Some m => fromPhysicalDisplayId s m | None => None end in
      r <- devCall (EvCreateVirtualDisplay w h)
             (fun ds => createVirtualDisplay_dev ds w h format hwcMirrorId) ;;
      let '(error, format', hwcDisplayId) := r in
      if negb (isNone error) then ret (false, format')
      else
        s' <- getHwc ;;
        let display := mkHwcDisplay hwcDisplayId VIRTUAL true in
        let r' := set_isVirtual true (recordWithDisplay s' displayId display) in
        putHwc (set_mDisplayData (<[displayId := r']> (mDisplayData s')) s') ;;;
        ret (true, format').

(** ** Hotplug resolver *)

(** HWComposer::allocatePhysicalDisplay *)
Definition allocatePhysicalDisplay (hwcDisplayId displayId : Z) : M unit :=
  s0 <- getHwc ;;
  let s1 := set_mPhysicalDisplayIdMap
              (<[hwcDisplayId := displayId]> (mPhysicalDisplayIdMap s0)) s0 in
  let s2 :=
    match mInternalHwcDisplayId s1 with
    | None => set_mInternalHwcDisplayId (Some hwcDisplayId) s1
    | Some i =>
        if negb (Z.eqb i hwcDisplayId) && negb (has_value (mExternalHwcDisplayId s1))
        then set_mExternalHwcDisplayId (Some hwcDisplayId) s1
        else s1
    end in
  let newDisplay := mkHwcDisplay hwcDisplayId PHYSICAL true in
  putHwc (set_mDisplayData
            (<[displayId := recordWithDisplay s2 displayId newDisplay]> (mDisplayData s2)) s2).

(** HWComposer::shouldIgnoreHotplugConnect *)
Definition shouldIgnoreHotplugConnect (s : HWComposer) (hwcDisplayId : Z)
    (hasDisplayIdentificationData : bool) : bool :=
  if mHasMultiDisplaySupport s && negb hasDisplayIdentificationData then true
  else if negb (mHasMultiDisplaySupport s) && has_value (mInternalHwcDisplayId s)
          && has_value (mExternalHwcDisplayId s) then true
  else false.

(** HWComposer::getDisplayIdentificationData: success flag, port, data. *)
Definition getDisplayIdentificationData (hwcDisplayId : Z) : M (bool * Z * list Z) :=
  r <- devCall (EvGetDisplayIdentificationData hwcDisplayId)
         (fun ds => getDisplayIdentificationData_dev ds hwcDisplayId) ;;
  let '(error, port, data) := r in
  ret (isNone error, port, data).

Section Hotplug.

(** The identification-data parser and PhysicalDisplayId::fromPort are
    external collaborators: any functions. *)
Variable parseDisplayIdentificationData :
  Z -> list Z -> option DisplayIdentificationInfo.
Variable fromPort : Z -> Z.

(** HWComposer::onHotplugConnect *)
Definition onHotplugConnect (hwcDisplayId : Z) : M (option DisplayIdentificationInfo) :=
  s <- getHwc ;;
  info <-
    match toPhysicalDisplayId s hwcDisplayId with
    | Some displayId =>
        let info := mkDisplayIdentificationInfo displayId EmptyString None in
        if mUpdateDeviceProductInfoOnHotplugReconnect s then
          r <- getDisplayIdentificationData hwcDisplayId ;;
          let '(_, port, data) := r in
          match parseDisplayIdentificationData port data with
          | Some newInfo =>
              ret (Some (mkDisplayIdentificationInfo displayId EmptyString
                           (deviceProductInfo newInfo)))
          | None => ret (Some info)
          end
        else ret (Some info)
    | None =>
        r <- getDisplayIdentificationData hwcDisplayId ;;
        let '(hasDisplayIdentificationData, port, data) := r in
        s1 <- getHwc ;;
        (if bool_decide (mPhysicalDisplayIdMap s1 = ∅)
         then putHwc (set_mHasMultiDisplaySupport hasDisplayIdentificationData s1)
         else ret tt) ;;;
        s2 <- getHwc ;;
        if shouldIgnoreHotplugConnect s2 hwcDisplayId hasDisplayIdentificationData
        then ret None
        else
          let isPrimary := negb (has_value (mInternalHwcDisplayId s2)) in
          let fallback (port : Z) :=
            mkDisplayIdentificationInfo (fromPort port)
              (if isPrimary then "Internal display" else "External display")%string
              None in
          if mHasMultiDisplaySupport s2 then
            match parseDisplayIdentificationData port data with
            | Some i => ret (Some i)
            | None => ret (Some (fallback port))
            end
          else
            ret (Some (fallback (if isPrimary then LEGACY_DISPLAY_TYPE_PRIMARY
                                 else LEGACY_DISPLAY_TYPE_EXTERNAL)))
    end ;;
  match info with
  | None => ret None
  | Some i =>
      s' <- getHwc ;;
      (if negb (isConnected s' (id i))
       then allocatePhysicalDisplay hwcDisplayId (id i) else ret tt) ;;;
      ret (Some i)
  end.

End Hotplug.

(** HWComposer::onHotplugDisconnect *)
Definition onHotplugDisconnect (hwcDisplayId : Z) : M (option DisplayIdentificationInfo) :=
  s <- getHwc ;;
  match toPhysicalDisplayId s hwcDisplayId with
  | None => ret None
  | Some displayId =>
      (if isConnected s displayId
       then modifyDisplayData displayId
              (fun r => set_hwcDisplay (setConnected false (hwcDisplay r)) r)
       else ret tt) ;;;
      ret (Some (mkDisplayIdentificationInfo displayId EmptyString None))
  end.

(** HWComposer::disconnectDisplay *)
Definition disconnectDisplay (displayId : Z) : M unit :=
  s <- getHwc ;;
  match mDisplayData s !! displayId with
  | None => ret tt
  | Some r =>
      let hwcDisplayId := hd_id (hwcDisplay r) in
      let s1 :=
        if bool_decide (mInternalHwcDisplayId s = Some hwcDisplayId)
        then set_mInternalHwcDisplayId None s
        else if bool_decide (mExternalHwcDisplayId s = Some hwcDisplayId)
        then set_mExternalHwcDisplayId None s
        else s in
      let s2 := set_mPhysicalDisplayIdMap
                  (delete hwcDisplayId (mPhysicalDisplayIdMap s1)) s1 in
      putHwc (set_mDisplayData (delete displayId (mDisplayData s2)) s2)
  end.

(** ** Composition negotiator and fence tracker *)

(** HWComposer::setClientTarget *)
Definition setClientTarget (displayId slot : Z) (acquireFence : Fence)
    (target dataspace : Z) : M status :=
  s <- getHwc ;;
  match mDisplayData s !! displayId with
  | None => ret BAD_INDEX
  | Some r =>
      if validateWasSkipped r then ret NO_ERROR
      else
        let h := hd_id (hwcDisplay r) in
        error <- devCall (EvSetClientTarget h)
                   (fun ds => setClientTarget_dev ds h slot target acquireFence dataspace) ;;
        if negb (isNone error) then ret BAD_VALUE else ret NO_ERROR
  end.

(** The slow validate/query part of getDeviceCompositionChanges, from the
    check of the validate result on. *)
Definition queryChanges (h : Z) (error : Error) (acceptChanges : bool)
    (outChanges : option DeviceRequestedChanges)
    : M (status * option DeviceRequestedChanges) :=
  if negb (hasChangesError error) && negb (isNone error) then ret (BAD_INDEX, outChanges)
  else
    r1 <- devCall (EvGetChangedCompositionTypes h)
            (fun ds => getChangedCompositionTypes_dev ds h) ;;
    let '(e1, changedTypes) := r1 in
    if negb (isNone e1) then ret (BAD_INDEX, outChanges)
    else
      r2 <- devCall (EvGetRequests h) (fun ds => getRequests_dev ds h) ;;
      let '(e2, displayRequests, layerRequests) := r2 in
      if negb (isNone e2) then ret (BAD_INDEX, outChanges)
      else
        r3 <- devCall (EvGetClientTargetProperty h)
                (fun ds => getClientTargetProperty_dev ds h) ;;
        let '(_, clientTargetProperty) := r3 in
        let out := Some (mkDeviceRequestedChanges changedTypes displayRequests
                           layerRequests clientTargetProperty) in
        if acceptChanges then
          e4 <- devCall (EvAcceptChanges h) (fun ds => acceptChanges_dev ds h) ;;
          if negb (isNone e4) then ret (BAD_INDEX, out) else ret (NO_ERROR, out)
        else ret (NO_ERROR, out).

(** HWComposer::getDeviceCompositionChanges; returns the status and the
    final value of [*outChanges]. *)
Definition getDeviceCompositionChanges (displayId : Z)
    (outChanges : option DeviceRequestedChanges)
    : M (status * option DeviceRequestedChanges) :=
  s <- getHwc ;;
  match mDisplayData s !! displayId with
  | None => ret (BAD_INDEX, outChanges)
  | Some r =>
      let h := hd_id (hwcDisplay r) in
      if negb (hd_connected (hwcDisplay r)) then ret (NO_ERROR, outChanges)
      else
        let canSkipValidate := true in
        modifyDisplayData displayId (set_validateWasSkipped false) ;;;
        if canSkipValidate then
          pv <- devCall (EvPresentOrValidate h) (fun ds => presentOrValidate_dev ds h) ;;
          let '(error, _, _, outPresentFence, state) := pv in
          if negb (hasChangesError error) && negb (isNone error)
          then ret (UNKNOWN_ERROR, outChanges)
          else
            error' <-
              (if Z.eqb state 1 || Z.eqb state 2 then
                 rf <- devCall (EvGetReleaseFences h) (fun ds => getReleaseFences_dev ds h) ;;
                 let '(e, releaseFences) := rf in
                 modifyDisplayData displayId
                   (fun r => set_presentError e (set_validateWasSkipped true
                      (set_lastPresentFence outPresentFence
                         (set_releaseFences releaseFences r)))) ;;;
                 ret e
               else ret error) ;;
            if Z.eqb state 1 then ret (NO_ERROR, outChanges)
            else queryChanges h error' (negb (Z.eqb state 2)) outChanges
        else
          v <- devCall (EvValidate h) (fun ds => validate_dev ds h) ;;
          let '(error, _, _) := v in
          queryChanges h error true outChanges
  end.

(** HWComposer::getLayerReleaseFence (const, no device call). *)
Definition getLayerReleaseFence (s : HWComposer) (displayId layer : Z) : Fence :=
  match mDisplayData s !! displayId with
  | None => NO_FENCE
  | Some r =>
      match releaseFences r !! layer with
      | None => NO_FENCE
      | Some f => f
      end
  end.

(** HWComposer::presentAndGetReleaseFences; [previousSignalTime] is
    previousPresentFence->getSignalTime(). *)
Definition presentAndGetReleaseFences (displayId earliestPresentTime
    previousSignalTime : Z) : M status :=
  s <- getHwc ;;
  match mDisplayData s !! displayId with
  | None => ret BAD_INDEX
  | Some r =>
      let h := hd_id (hwcDisplay r) in
      if validateWasSkipped r then
        modifyDisplayData displayId (set_validateWasSkipped false) ;;;
        error <- devCall EvExecuteCommands executeCommands_dev ;;
        if negb (isNone error) then ret UNKNOWN_ERROR
        else if negb (isNone (presentError r)) then ret UNKNOWN_ERROR
        else ret NO_ERROR
      else
        modifyDisplayData displayId (set_lastPresentFence NO_FENCE) ;;;
        let previousFramePending := Z.eqb previousSignalTime SIGNAL_TIME_PENDING in
        (if negb previousFramePending then emit (EvSleepUntil earliestPresentTime)
         else ret tt) ;;;
        p <- devCall (EvPresent h) (fun ds => present_dev ds h) ;;
        let '(error, presentFence) := p in
        (match presentFence with
         | Some f => modifyDisplayData displayId (set_lastPresentFence f)
         | None => ret tt
         end) ;;;
        if negb (isNone error) then ret UNKNOWN_ERROR
        else
          rf <- devCall (EvGetReleaseFences h) (fun ds => getReleaseFences_dev ds h) ;;
          let '(e, releaseFences) := rf in
          if negb (isNone e) then ret UNKNOWN_ERROR
          else
            modifyDisplayData displayId (set_releaseFences releaseFences) ;;;
            ret NO_ERROR
  end.

End Embedding.

Arguments Ret {DS A} a w.
Arguments Fatal {DS A} w.


(** * The rest of HWComposer

    The display queries and controls below go through HWC2::Display methods
    and Hwc2::Composer calls that the claims do not use. They form a second
    device interface, [DisplayHal]. Their calls are not traced: what they do
    to the device is seen in the device state of the [World]. *)

(** hal::PowerMode *)
Inductive PowerMode := OFF | DOZE | ON | DOZE_SUSPEND | ON_SUSPEND.

(** ui::DisplayConnectionType *)
Inductive DisplayConnectionType := Internal | External.

(** hal::Attribute, those getModes queries. *)
Inductive Attribute := WIDTH | HEIGHT | VSYNC_PERIOD | DPI_X | DPI_Y | CONFIG_GROUP.

(** HWComposer::HWCDisplayMode *)
Record HWCDisplayMode := mkHWCDisplayMode {
  hwcId : Z;
  width : Z;
  height : Z;
  vsyncPeriod : Z;
  dpiX : Z;
  dpiY : Z;
  configGroup : Z
}.

Definition set_vsyncEnabled (b : Vsync.t) (r : DisplayData) : DisplayData :=
  mkDisplayData (isVirtual r) (hwcDisplay r) (lastPresentFence r)
    (releaseFences r) (validateWasSkipped r) (presentError r)
    (vsyncTraceToggle r) b (lastHwVsync r).

(** Display-level and composer-level operations; out-parameters are returned
    with their final values. *)
Class DisplayHal (DS : Type) := {
  setVsyncEnabled_dev : DS -> Z -> Vsync.t -> Error * DS;
  supportsDoze_dev : DS -> Z -> (Error * bool) * DS;
  setPowerMode_dev : DS -> Z -> PowerMode -> Error * DS;
  getActiveConfig_dev : DS -> Z -> (Error * Z) * DS;
  getConnectionType_dev : DS -> Z -> (Error * DisplayConnectionType) * DS;
  isVsyncPeriodSwitchSupported_dev : DS -> Z -> bool * DS;
  getDisplayVsyncPeriod_dev : DS -> Z -> (Error * Z) * DS;
  getDisplayConfigs_dev : DS -> Z -> (Error * list Z) * DS;
  getDisplayAttribute_dev : DS -> Z -> Z -> Attribute -> (Error * Z) * DS;
  setAutoLowLatencyMode_dev : DS -> Z -> bool -> Error * DS;
  setContentType_dev : DS -> Z -> Z -> Error * DS;
  setDisplayContentSamplingEnabled_dev : DS -> Z -> bool -> Z -> Z -> Error * DS;
  setDisplayElapseTime_dev : DS -> Z -> Z -> Error * DS;
  getCapabilities_dev : DS -> list Z * DS;
  getLayerGenericMetadataKeys_dev : DS -> (Error * list (string * bool)) * DS;
  composerIsVsyncPeriodSwitchSupported : DS -> bool;
  registerCallback_dev : DS -> Z -> bool -> DS   (* callback, vsync switching *)
}.

(** HWComposer::fromVirtualDisplayId *)
Definition fromVirtualDisplayId (s : HWComposer) (d : Z) : option Z :=
  match mDisplayData s !! d with
  | Some r => if isVirtual r then Some (hd_id (hwcDisplay r)) else None
  | None => None
  end.

(** HWComposer::getPresentFence *)
Definition getPresentFence (s : HWComposer) (displayId : Z) : Fence :=
  match mDisplayData s !! displayId with
  | None => NO_FENCE
  | Some r => lastPresentFence r
  end.

(** hal::Connection *)
Inductive Connection := CONNECTED | DISCONNECTED | INVALID.

(** The part of impl::HWComposer that setCallback works on. *)
Record CallbackState := mkCallbackState {
  mCapabilities : gset Z;
  mSupportedLayerGenericMetadata : gmap string bool;
  mRegisteredCallback : bool
}.

(** std::unordered_map::emplace: an existing key keeps its value. *)
Definition emplace (k : string) (v : bool) (m : gmap string bool) : gmap string bool :=
  match m !! k with Some _ => m | None => <[k := v]> m end.

Fixpoint emplaceAll (kvs : list (string * bool)) (m : gmap string bool)
    : gmap string bool :=
  match kvs with
  | [] => m
  | (k, v) :: rest => emplaceAll rest (emplace k v m)
  end.

Fixpoint insertCapabilities (caps : list Z) (s : gset Z) : gset Z :=
  match caps with
  | [] => s
  | c :: rest => insertCapabilities rest ({[c]} ∪ s)
  end.

Section Extension.

Context {DS : Type} `{DisplayHal DS}.

Local Notation "x <- m ;; k" := (bind m (fun x => k))
  (at level 100, m at next level, right associativity).
Local Notation "m ;;; k" := (bind m (fun _ => k))
  (at level 100, right associativity).

(** A call of the [DisplayHal] interface. *)
Definition halCall {R} (f : DS -> R * DS) : @M DS R :=
  fun w => let '(r, d) := f (dev w) in Ret r (mkWorld (hwc w) d (trace w)).

(** HWComposer::clearReleaseFences *)
Definition clearReleaseFences (displayId : Z) : @M DS unit :=
  modifyDisplayData displayId (set_releaseFences ∅).

(** HWComposer::setVsyncEnabled *)
Definition setVsyncEnabled (displayId : Z) (enabled : Vsync.t) : @M DS unit :=
  s <- getHwc ;;
  match mDisplayData s !! displayId with
  | None => ret tt
  | Some r =>
      if isVirtual r then fatal
      else if bool_decide (enabled = vsyncEnabled r) then ret tt
      else
        error <- halCall (fun ds => setVsyncEnabled_dev ds (hd_id (hwcDisplay r)) enabled) ;;
        if negb (isNone error) then ret tt
        else
          modifyDisplayData displayId (set_vsyncEnabled enabled) ;;;
          emit (EvTraceVsyncOn displayId (bool_decide (enabled = Vsync.ENABLE)))
  end.

(** HWComposer::setPowerMode; failures are only logged. *)
Definition setPowerMode (displayId : Z) (mode : PowerMode) : @M DS status :=
  s <- getHwc ;;
  match mDisplayData s !! displayId with
  | None => ret BAD_INDEX
  | Some r =>
      if isVirtual r then fatal
      else
        let h := hd_id (hwcDisplay r) in
        match mode with
        | OFF | ON =>
            _ <- halCall (fun ds => setPowerMode_dev ds h mode) ;;
            ret NO_ERROR
        | DOZE | DOZE_SUSPEND =>
            v <- halCall (fun ds => supportsDoze_dev ds h) ;;
            let '(_, supportsDoze) := v in
            let mode' := if supportsDoze then mode else ON in
            _ <- halCall (fun ds => setPowerMode_dev ds h mode') ;;
            ret NO_ERROR
        | ON_SUSPEND => ret NO_ERROR
        end
  end.

(** HWComposer::getActiveMode; [*fromPhysicalDisplayId(displayId)] on a
    virtual display dereferences an empty optional, an abort here. *)
Definition getActiveMode (displayId : Z) : @M DS (option Z) :=
  s <- getHwc ;;
  match mDisplayData s !! displayId with
  | None => ret None
  | Some _ =>
      match fromPhysicalDisplayId s displayId with
      | None => fatal
      | Some hwcId =>
          v <- halCall (fun ds => getActiveConfig_dev ds hwcId) ;;
          let '(error, configId) := v in
          match error with
          | BAD_CONFIG => ret None
          | _ => ret (Some configId)
          end
      end
  end.

(** HWComposer::getDisplayConnectionType *)
Definition getDisplayConnectionType (displayId : Z) : @M DS DisplayConnectionType :=
  s <- getHwc ;;
  match mDisplayData s !! displayId with
  | None => ret Internal
  | Some r =>
      let h := hd_id (hwcDisplay r) in
      v <- halCall (fun ds => getConnectionType_dev ds h) ;;
      let '(error, type) := v in
      let FALLBACK_TYPE :=
        if bool_decide (Some h = mInternalHwcDisplayId s) then Internal else External in
      if negb (isNone error) then ret FALLBACK_TYPE else ret type
  end.

(** HWComposer::isVsyncPeriodSwitchSupported *)
Definition isVsyncPeriodSwitchSupported (displayId : Z) : @M DS bool :=
  s <- getHwc ;;
  match mDisplayData s !! displayId with
  | None => ret false
  | Some r => halCall (fun ds => isVsyncPeriodSwitchSupported_dev ds (hd_id (hwcDisplay r)))
  end.

(** HWComposer::getDisplayVsyncPeriod: the status and the value written to
    [*outVsyncPeriod], if any. [return 0] is NO_ERROR. *)
Definition getDisplayVsyncPeriod (displayId : Z) : @M DS (status * option Z) :=
  s <- getHwc ;;
  match mDisplayData s !! displayId with
  | None => ret (NO_ERROR, None)
  | Some _ =>
      supported <- isVsyncPeriodSwitchSupported displayId ;;
      if negb supported then ret (INVALID_OPERATION, None)
      else
        s' <- getHwc ;;
        match fromPhysicalDisplayId s' displayId with
        | None => fatal
        | Some hwcId =>
            v <- halCall (fun ds => getDisplayVsyncPeriod_dev ds hwcId) ;;
            let '(error, vsyncPeriodNanos) := v in
            if negb (isNone error) then ret (NO_ERROR, None)
            else ret (NO_ERROR, Some vsyncPeriodNanos)
        end
  end.

(** HWComposer::getAttribute; the error path logs
    [*toPhysicalDisplayId(hwcDisplayId)], an abort for an unmapped handle. *)
Definition getAttribute (hwcDisplayId configId : Z) (attribute : Attribute) : @M DS Z :=
  v <- halCall (fun ds => getDisplayAttribute_dev ds hwcDisplayId configId attribute) ;;
  let '(error, value) := v in
  if negb (isNone error) then
    s <- getHwc ;;
    match toPhysicalDisplayId s hwcDisplayId with
    | None => fatal
    | Some _ => ret (-1)
    end
  else ret value.

(** The loop of getModes, one mode per config, attributes in field order. *)
Fixpoint modesOf (hwcDisplayId : Z) (configIds : list Z) : @M DS (list HWCDisplayMode) :=
  match configIds with
  | [] => ret []
  | configId :: rest =>
      w <- getAttribute hwcDisplayId configId WIDTH ;;
      ht <- getAttribute hwcDisplayId configId HEIGHT ;;
      vp <- getAttribute hwcDisplayId configId VSYNC_PERIOD ;;
      x <- getAttribute hwcDisplayId configId DPI_X ;;
      y <- getAttribute hwcDisplayId configId DPI_Y ;;
      g <- getAttribute hwcDisplayId configId CONFIG_GROUP ;;
      modes <- modesOf hwcDisplayId rest ;;
      ret (mkHWCDisplayMode configId w ht vp x y g :: modes)
  end.

(** HWComposer::getModes *)
Definition getModes (displayId : Z) : @M DS (list HWCDisplayMode) :=
  s <- getHwc ;;
  match mDisplayData s !! displayId with
  | None => ret []
  | Some r =>
      let h := hd_id (hwcDisplay r) in
      c <- halCall (fun ds => getDisplayConfigs_dev ds h) ;;
      let '(error, configIds) := c in
      if negb (isNone error) then
        s' <- getHwc ;;
        match toPhysicalDisplayId s' h with
        | None => fatal
        | Some _ => ret []
        end
      else modesOf h configIds
  end.

(** HWComposer::setAutoLowLatencyMode *)
Definition setAutoLowLatencyMode (displayId : Z) (on : bool) : @M DS status :=
  s <- getHwc ;;
  match mDisplayData s !! displayId with
  | None => ret BAD_INDEX
  | Some r =>
      error <- halCall (fun ds => setAutoLowLatencyMode_dev ds (hd_id (hwcDisplay r)) on) ;;
      match error with
      | UNSUPPORTED => ret INVALID_OPERATION
      | BAD_PARAMETER => ret BAD_VALUE
      | NONE => ret NO_ERROR
      | _ => ret UNKNOWN_ERROR
      end
  end.

(** HWComposer::setContentType *)
Definition setContentType (displayId : Z) (contentType : Z) : @M DS status :=
  s <- getHwc ;;
  match mDisplayData s !! displayId with
  | None => ret BAD_INDEX
  | Some r =>
      error <- halCall (fun ds => setContentType_dev ds (hd_id (hwcDisplay r)) contentType) ;;
      match error with
      | UNSUPPORTED => ret INVALID_OPERATION
      | BAD_PARAMETER => ret BAD_VALUE
      | NONE => ret NO_ERROR
      | _ => ret UNKNOWN_ERROR
      end
  end.

(** HWComposer::setDisplayContentSamplingEnabled *)
Definition setDisplayContentSamplingEnabled (displayId : Z) (enabled : bool)
    (componentMask maxFrames : Z) : @M DS status :=
  s <- getHwc ;;
  match mDisplayData s !! displayId with
  | None => ret BAD_INDEX
  | Some r =>
      error <- halCall (fun ds => setDisplayContentSamplingEnabled_dev ds
                                   (hd_id (hwcDisplay r)) enabled componentMask maxFrames) ;;
      match error with
      | UNSUPPORTED => ret INVALID_OPERATION
      | BAD_PARAMETER => ret BAD_VALUE
      | NONE => ret NO_ERROR
      | _ => ret UNKNOWN_ERROR
      end
  end.

(** HWComposer::setDisplayElapseTime *)
Definition setDisplayElapseTime (displayId : Z) (timeStamp : Z) : @M DS status :=
  s <- getHwc ;;
  match mDisplayData s !! displayId with
  | None => ret BAD_INDEX
  | Some r =>
      error <- halCall (fun ds => setDisplayElapseTime_dev ds (hd_id (hwcDisplay r)) timeStamp) ;;
      match error with
      | BAD_PARAMETER => ret BAD_VALUE
      | NONE => ret NO_ERROR
      | _ => ret UNKNOWN_ERROR
      end
  end.

(** HWComposer::loadCapabilities *)
Definition loadCapabilities (cs : CallbackState) (ds : DS) : CallbackState * DS :=
  let '(capabilities, ds') := getCapabilities_dev ds in
  (mkCallbackState (insertCapabilities capabilities (mCapabilities cs))
     (mSupportedLayerGenericMetadata cs) (mRegisteredCallback cs), ds').

(** HWComposer::loadLayerMetadataSupport *)
Definition loadLayerMetadataSupport (cs : CallbackState) (ds : DS) : CallbackState * DS :=
  let '(v, ds') := getLayerGenericMetadataKeys_dev ds in
  let '(error, supportedMetadataKeyInfo) := v in
  if negb (isNone error) then
    (mkCallbackState (mCapabilities cs) ∅ (mRegisteredCallback cs), ds')
  else
    (mkCallbackState (mCapabilities cs) (emplaceAll supportedMetadataKeyInfo ∅)
       (mRegisteredCallback cs), ds').

(** HWComposer::setCallback; the bridge is registered with the composer's
    vsync-period-switching support. *)
Definition setCallback (callback : Z) (cs : CallbackState) (ds : DS) : CallbackState * DS :=
  let '(cs1, ds1) := loadCapabilities cs ds in
  let '(cs2, ds2) := loadLayerMetadataSupport cs1 ds1 in
  if mRegisteredCallback cs2 then (cs2, ds2)
  else
    (mkCallbackState (mCapabilities cs2) (mSupportedLayerGenericMetadata cs2) true,
     registerCallback_dev ds2 callback (composerIsVsyncPeriodSwitchSupported ds2)).

(** HWComposer::hasCapability *)
Definition hasCapability (cs : CallbackState) (capability : Z) : bool :=
  bool_decide (capability ∈ mCapabilities cs).

End Extension.

(** * Properties *)

Section Properties.

Context {DS : Type} `{Composer DS}.

Local Abbreviation World := (@World DS).

Ltac run :=
  cbv [bind ret getHwc putHwc emit devCall fatal modifyDisplayData
    lookupDisplay toPhysicalDisplayId isConnected getDisplayIdentificationData] in *;
  simpl in *.

(** Reduce a run, rewriting with the hypotheses that fix the record looked up
    and the device answers, and with the map laws of repeated updates. *)
Ltac step :=
  repeat (simpl; first
    [ match goal with H : ?a = _ |- context [?a] => rewrite H end
    | rewrite lookup_insert_eq
    | rewrite insert_insert_eq ]).

(** Close [trace w' = ?new ++ trace w] when the trace of [w'] is the trace of
    [w] with events pushed in front. *)
Ltac solve_prefix :=
  simpl;
  match goal with
  | |- ?l = ?n ++ ?t =>
      let rec f l :=
        lazymatch l with
        | t => constr:(@nil Event)
        | ?a :: ?rest => let r := f rest in constr:(a :: r)
        end in
      let nl := f l in unify n nl; reflexivity
  end.

(** Close the facts about the events of one concrete run. *)
Ltac events_leaf :=
  simpl; repeat split; try lia; intuition (subst; simpl; try congruence; eauto).

(** C10: getDeviceCompositionChanges on a registered display whose record
    is marked not connected returns NO_ERROR at once: no device call, the
    out-parameter untouched, the world (state and trace) unchanged. *)
Lemma getDeviceCompositionChanges_disconnected (w : World) (d : Z)
    (r : DisplayData) (outChanges : option DeviceRequestedChanges) :
  lookupDisplay (hwc w) d = Some r ->
  hd_connected (hwcDisplay r) = false ->
  getDeviceCompositionChanges d outChanges w = Ret (NO_ERROR, outChanges) w.
Proof.
  intros Hr Hc. unfold getDeviceCompositionChanges. run.
  rewrite Hr, Hc. reflexivity.
Qed.

(** C9: setClientTarget on a registered display whose validate-was-skipped
    flag is set returns NO_ERROR with no device call and no state change. *)
Lemma setClientTarget_skipped (w : World) (d slot : Z) (acquireFence : Fence)
    (target dataspace : Z) (r : DisplayData) :
  lookupDisplay (hwc w) d = Some r ->
  validateWasSkipped r = true ->
  setClientTarget d slot acquireFence target dataspace w = Ret NO_ERROR w.
Proof.
  intros Hr Hv. unfold setClientTarget. run.
  rewrite Hr, Hv. reflexivity.
Qed.

(** C7: for a registered display, the release fence of a layer absent from
    the display's release-fence map is Fence::NO_FENCE; a layer present in
    the map gets its stored fence. *)
Lemma getLayerReleaseFence_spec (s : HWComposer) (d layer : Z) (r : DisplayData) :
  lookupDisplay s d = Some r ->
  (releaseFences r !! layer = None -> getLayerReleaseFence s d layer = NO_FENCE) /\
  (forall f, releaseFences r !! layer = Some f -> getLayerReleaseFence s d layer = f).
Proof.
  intros Hr. unfold getLayerReleaseFence, lookupDisplay in *. rewrite Hr.
  split; [intros Hl | intros f Hl]; rewrite Hl; reflexivity.
Qed.

(** C1: on a registered, connected display, when the fast path
    (presentOrValidate) succeeds, or reports pending changes, with state 1
    (committed, no composition changes), getDeviceCompositionChanges returns
    NO_ERROR with [*outChanges] untouched, after marking validate as skipped
    and capturing the release-fence error; the next presentAndGetReleaseFences
    issues no present call: its only device call is executeCommands, and it
    succeeds exactly when that flush and the captured error are both NONE. *)
Lemma committedNoChanges_skips_present (w : World) (d : Z) (r : DisplayData)
    (outChanges : option DeviceRequestedChanges) (e : Error) (nT nR : Z)
    (pf : Fence) (ds1 : DS) :
  lookupDisplay (hwc w) d = Some r ->
  hd_connected (hwcDisplay r) = true ->
  presentOrValidate_dev (dev w) (hd_id (hwcDisplay r)) = ((e, nT, nR, pf, 1), ds1) ->
  isNone e || hasChangesError e = true ->
  exists w1 r1,
    getDeviceCompositionChanges d outChanges w = Ret (NO_ERROR, outChanges) w1 /\
    lookupDisplay (hwc w1) d = Some r1 /\ validateWasSkipped r1 = true /\
    presentError r1 = fst (fst (getReleaseFences_dev ds1 (hd_id (hwcDisplay r)))) /\
    (forall earliestPresentTime previousSignalTime : Z,
       exists st w2,
         presentAndGetReleaseFences d earliestPresentTime previousSignalTime w1
           = Ret st w2 /\
         trace w2 = EvExecuteCommands :: trace w1 /\
         (st = NO_ERROR <->
            isNone (fst (executeCommands_dev (dev w1))) = true /\
            isNone (presentError r1) = true)).
Proof.
  intros Hr Hc Hpov He.
  assert (Hok : negb (hasChangesError e) && negb (isNone e) = false)
    by (destruct e; simpl in *; congruence).
  destruct (getReleaseFences_dev ds1 (hd_id (hwcDisplay r))) as [[ge gm] ds2] eqn:Hg.
  unfold getDeviceCompositionChanges. run. step.
  eexists _, _. split; [reflexivity|]. simpl. step.
  split; [reflexivity|]. split; [reflexivity|]. split; [reflexivity|].
  intros t p. unfold presentAndGetReleaseFences. run. step.
  destruct (executeCommands_dev ds2) as [xe ds3] eqn:Hx. simpl.
  destruct xe, ge; simpl; eexists _, _; (split; [reflexivity|]); simpl;
    (split; [reflexivity|]); intuition congruence.
Qed.

(** C2: after disconnectDisplay the identity is unknown to the registry and
    the handle of the destroyed record is no longer mapped; after a bare
    hotplug-disconnect notification for a handle mapped to a registered
    identity, the record is still there and marked not connected. *)
Lemma disconnect_destroys_bare_disconnect_keeps (w : World) (d : Z) :
  (exists w', disconnectDisplay d w = Ret tt w' /\
     lookupDisplay (hwc w') d = None /\
     (forall r, lookupDisplay (hwc w) d = Some r ->
        mPhysicalDisplayIdMap (hwc w') !! hd_id (hwcDisplay r) = None)) /\
  (forall hwcDisplayId : Z,
     toPhysicalDisplayId (hwc w) hwcDisplayId = Some d ->
     is_Some (lookupDisplay (hwc w) d) ->
     exists (w' : World) (r' : DisplayData),
       onHotplugDisconnect hwcDisplayId w
         = Ret (Some (mkDisplayIdentificationInfo d EmptyString None)) w' /\
       lookupDisplay (hwc w') d = Some r' /\ hd_connected (hwcDisplay r') = false).
Proof.
  split.
  - unfold disconnectDisplay. run.
    destruct (mDisplayData (hwc w) !! d) as [r|] eqn:Hr.
    + eexists. split; [reflexivity|]. simpl. split.
      * apply lookup_delete_eq.
      * intros r0 Hr0. injection Hr0 as <-.
        repeat case_bool_decide; simpl; apply lookup_delete_eq.
    + eexists. split; [reflexivity|]. split; [exact Hr|]. discriminate.
  - intros h Hm [r Hr]. unfold onHotplugDisconnect. run.
    rewrite Hm. simpl. rewrite Hr.
    destruct (hd_connected (hwcDisplay r)) eqn:Hc; simpl; step.
    + eexists _, _. split; [reflexivity|]. simpl. step. split; reflexivity.
    + eexists _, _. split; [reflexivity|]. split; [exact Hr | exact Hc].
Qed.

(** C4 (amended): onVsync on a handle mapped to a physical record filters
    only a timestamp equal to the record's last-seen one: such a duplicate
    is rejected with the world unchanged (no state update, no trace toggle).
    Any other timestamp, earlier or later, is accepted: it becomes the
    last-seen value, the trace marker is emitted and flipped, and the same
    timestamp delivered again right after is rejected. *)
Lemma onVsync_filters_duplicates (w : World) (hwcDisplayId d t : Z)
    (r : DisplayData) :
  toPhysicalDisplayId (hwc w) hwcDisplayId = Some d ->
  lookupDisplay (hwc w) d = Some r ->
  isVirtual r = false ->
  (t = lastHwVsync r -> onVsync hwcDisplayId t w = Ret false w) /\
  (t <> lastHwVsync r ->
     exists w',
       onVsync hwcDisplayId t w = Ret true w' /\
       hwc w' = set_mDisplayData
                  (<[d := set_vsyncTraceToggle (negb (vsyncTraceToggle r))
                            (set_lastHwVsync t r)]> (mDisplayData (hwc w))) (hwc w) /\
       dev w' = dev w /\
       trace w' = EvTraceInt d (vsyncTraceToggle r) :: trace w /\
       onVsync hwcDisplayId t w' = Ret false w').
Proof.
  intros Hm Hr Hv. split.
  - intros ->. unfold onVsync. run. rewrite Hm, Hr, Hv, Z.eqb_refl. reflexivity.
  - intros Hne. apply Z.eqb_neq in Hne.
    unfold onVsync. run. rewrite Hm, Hr, Hv, Hne. simpl. step.
    eexists. split; [reflexivity|]. simpl.
    split; [reflexivity|]. split; [reflexivity|]. split; [reflexivity|].
    unfold onVsync. run. rewrite Hm. simpl. rewrite lookup_insert_eq. simpl.
    rewrite Hv, Z.eqb_refl. reflexivity.
Qed.

(** C5: allocateVirtualDisplay (for an int32 resolution, as ui::Size holds
    it) fails, leaving the registry unchanged, when the resolution is
    degenerate, when a positive maximum dimension is configured and the
    width or the height exceeds it, or when the device refuses creation; on
    success the record of the identity is virtual and its display is a
    connected virtual display. *)
Lemma allocateVirtualDisplay_spec (w : World) (displayId width height format : Z)
    (mirror : option Z) :
  -2 ^ 31 <= width < 2 ^ 31 ->
  -2 ^ 31 <= height < 2 ^ 31 ->
  exists (ok : bool) (format' : Z) (w' : World),
    allocateVirtualDisplay displayId width height format mirror w = Ret (ok, format') w' /\
    (ok = false -> hwc w' = hwc w) /\
    (sizeIsValid width height = false -> ok = false) /\
    (0 < mMaxVirtualDisplayDimension (hwc w) ->
       mMaxVirtualDisplayDimension (hwc w) < width \/
       mMaxVirtualDisplayDimension (hwc w) < height -> ok = false) /\
    (ok = true ->
       let hwcMirrorId :=
         match mirror with
         | Some m => fromPhysicalDisplayId (hwc w) m
         | None => None
         end in
       isNone (fst (fst (fst (createVirtualDisplay_dev (dev w) width height format
                                hwcMirrorId)))) = true /\
       exists r, lookupDisplay (hwc w') displayId = Some r /\
         isVirtual r = true /\ hd_type (hwcDisplay r) = VIRTUAL /\
         hd_connected (hwcDisplay r) = true).
Proof.
  intros Hw Hh. unfold allocateVirtualDisplay.
  destruct (sizeIsValid width height) eqn:Hvalid; simpl.
  2:{ do 3 eexists. split; [reflexivity|]. split; [reflexivity|].
      split; [reflexivity|]. split; [reflexivity|]. discriminate. }
  unfold sizeIsValid in Hvalid. apply andb_true_iff in Hvalid as [Hw0 Hh0].
  apply Z.ltb_lt in Hw0, Hh0.
  rewrite (Z.mod_small width) by lia. rewrite (Z.mod_small height) by lia.
  run.
  destruct ((0 <? mMaxVirtualDisplayDimension (hwc w)) &&
            ((mMaxVirtualDisplayDimension (hwc w) <? width) ||
             (mMaxVirtualDisplayDimension (hwc w) <? height))) eqn:Hmax; simpl.
  { do 3 eexists. split; [reflexivity|]. split; [reflexivity|].
    split; [reflexivity|]. split; [reflexivity|]. discriminate. }
  destruct (createVirtualDisplay_dev (dev w) width height format
              (match mirror with
               | Some m => fromPhysicalDisplayId (hwc w) m
               | None => None
               end)) as [[[e fmt] hid] ds'] eqn:Hc.
  simpl. destruct (isNone e) eqn:He; simpl.
  - do 3 eexists. split; [reflexivity|]. split; [discriminate|].
    split; [discriminate|]. split.
    + intros Hpos Hgt. apply andb_false_iff in Hmax as [Hm|Hm].
      * apply Z.ltb_ge in Hm. lia.
      * apply orb_false_iff in Hm as [Hm1 Hm2].
        apply Z.ltb_ge in Hm1, Hm2. lia.
    + intros _. simpl. split; [reflexivity|].
      eexists. rewrite lookup_insert_eq. split; [reflexivity|].
      unfold recordWithDisplay.
      destruct (mDisplayData (hwc w) !! displayId); simpl; auto.
  - do 3 eexists. split; [reflexivity|]. split; [reflexivity|].
    split; [discriminate|]. split.
    + intros Hpos Hgt. apply andb_false_iff in Hmax as [Hm|Hm].
      * apply Z.ltb_ge in Hm. lia.
      * apply orb_false_iff in Hm as [Hm1 Hm2].
        apply Z.ltb_ge in Hm1, Hm2. lia.
    + discriminate.
Qed.

(** C6 (amended): on a registered, connected display whose fast path
    succeeds (or reports pending changes) without committing everything
    (state other than 1), in a call that reaches the change queries (with
    state 2, the release-fence query succeeds or reports pending changes),
    getDeviceCompositionChanges calls acceptChanges at most once, and
    exactly when the state is not 2 and both change queries (composition
    types and requests) succeed. If a change query fails, BAD_INDEX is
    returned, the out-parameter is left as it was, and acceptChanges is not
    called. If both succeed, the DeviceRequestedChanges result is produced;
    with state 2 it is not re-applied and NO_ERROR is returned. No present
    call is issued. *)
Lemma acceptChanges_unless_committed (w : World) (d : Z) (r : DisplayData)
    (outChanges : option DeviceRequestedChanges) (e : Error) (nT nR : Z)
    (pf : Fence) (state : Z) (ds1 : DS) (ge : Error) (gm : gmap Z Fence) (dsr : DS)
    (e1 : Error) (ct : gmap Z Z) (ds2 : DS) (e2 : Error) (dr : Z) (lr : gmap Z Z)
    (ds3 : DS) :
  lookupDisplay (hwc w) d = Some r ->
  hd_connected (hwcDisplay r) = true ->
  presentOrValidate_dev (dev w) (hd_id (hwcDisplay r)) = ((e, nT, nR, pf, state), ds1) ->
  isNone e || hasChangesError e = true ->
  state <> 1 ->
  getReleaseFences_dev ds1 (hd_id (hwcDisplay r)) = ((ge, gm), dsr) ->
  (state = 2 -> isNone ge || hasChangesError ge = true) ->
  getChangedCompositionTypes_dev (if Z.eqb state 2 then dsr else ds1) (hd_id (hwcDisplay r))
    = ((e1, ct), ds2) ->
  getRequests_dev ds2 (hd_id (hwcDisplay r)) = ((e2, dr, lr), ds3) ->
  exists st out (new : list Event) (w' : World),
    getDeviceCompositionChanges d outChanges w = Ret (st, out) w' /\
    trace w' = new ++ trace w /\
    (length (filter isAcceptChangesCall new) <= 1)%nat /\
    (In (EvAcceptChanges (hd_id (hwcDisplay r))) new <->
       state <> 2 /\ isNone e1 = true /\ isNone e2 = true) /\
    (isNone e1 && isNone e2 = false -> st = BAD_INDEX /\ out = outChanges) /\
    (isNone e1 && isNone e2 = true ->
       (exists c, out = Some c) /\ (state = 2 -> st = NO_ERROR)) /\
    (forall ev, In ev new -> isPresentCall ev = false).
Proof.
  intros Hr Hc Hpov He Hst Hg Hge H1 H2.
  assert (Hok : negb (hasChangesError e) && negb (isNone e) = false)
    by (destruct e; simpl in *; congruence).
  unfold getDeviceCompositionChanges, queryChanges. run. step.
  destruct (Z.eqb state 2) eqn:H2s; simpl in H1.
  - apply Z.eqb_eq in H2s. subst state. simpl. step.
    assert (Hgok : negb (hasChangesError ge) && negb (isNone ge) = false)
      by (specialize (Hge eq_refl); destruct ge; simpl in *; congruence).
    rewrite Hgok. simpl. step.
    destruct (isNone e1) eqn:He1; simpl; step;
      [destruct (isNone e2) eqn:He2; simpl; step;
       [destruct (getClientTargetProperty_dev ds3 (hd_id (hwcDisplay r)))
          as [[e3 ctp] ds4]; simpl|]|];
      eexists _, _, _, _; (split; [reflexivity|]); (split; [solve_prefix|]);
      events_leaf.
  - apply Z.eqb_neq in H2s. assert (Hs1 : (state =? 1) = false) by (apply Z.eqb_neq; exact Hst).
    rewrite Hs1. simpl. step.
    destruct (isNone e1) eqn:He1; simpl; step;
      [destruct (isNone e2) eqn:He2; simpl; step;
       [destruct (getClientTargetProperty_dev ds3 (hd_id (hwcDisplay r)))
          as [[e3 ctp] ds4]; simpl;
        destruct (acceptChanges_dev ds4 (hd_id (hwcDisplay r))) as [e4 ds5]; simpl;
        destruct (isNone e4); simpl|]|];
      eexists _, _, _, _; (split; [reflexivity|]); (split; [solve_prefix|]);
      events_leaf.
Qed.

(** C8 (amended): when validate was not skipped, presentAndGetReleaseFences
    resets the stored present fence to NO_FENCE, sleeps until the earliest
    present time exactly when the previous present fence has signaled (its
    signal time is not pending), and then issues present; the stored present
    fence is the one present produced, or stays NO_FENCE. After a successful
    present the release fences are queried, and they overwrite the stored map
    only when that query succeeds; on either failure UNKNOWN_ERROR is
    returned and the stored map is kept. *)
Lemma present_when_not_skipped (w : World) (d earliestPresentTime
    previousSignalTime : Z) (r : DisplayData) (pe : Error) (pf : option Fence)
    (ds1 : DS) (ge : Error) (gm : gmap Z Fence) (ds2 : DS) :
  lookupDisplay (hwc w) d = Some r ->
  validateWasSkipped r = false ->
  present_dev (dev w) (hd_id (hwcDisplay r)) = ((pe, pf), ds1) ->
  getReleaseFences_dev ds1 (hd_id (hwcDisplay r)) = ((ge, gm), ds2) ->
  exists st (w' : World) r',
    presentAndGetReleaseFences d earliestPresentTime previousSignalTime w = Ret st w' /\
    lookupDisplay (hwc w') d = Some r' /\
    trace w' =
      (if isNone pe then [EvGetReleaseFences (hd_id (hwcDisplay r))] else []) ++
      EvPresent (hd_id (hwcDisplay r)) ::
      (if Z.eqb previousSignalTime SIGNAL_TIME_PENDING then []
       else [EvSleepUntil earliestPresentTime]) ++ trace w /\
    lastPresentFence r' = match pf with Some f => f | None => NO_FENCE end /\
    st = (if isNone pe && isNone ge then NO_ERROR else UNKNOWN_ERROR) /\
    releaseFences r' = (if isNone pe && isNone ge then gm else releaseFences r).
Proof.
  intros Hr Hv Hp Hg. unfold presentAndGetReleaseFences. run. step.
  destruct (Z.eqb previousSignalTime SIGNAL_TIME_PENDING); simpl; step;
    destruct pf as [f|]; simpl; step;
    destruct (isNone pe) eqn:Hpe; simpl; step;
    try (destruct (isNone ge) eqn:Hge; simpl; step);
    eexists _, _, _; (split; [reflexivity|]); simpl; step;
    (split; [reflexivity|]); (split; [reflexivity|]);
    (split; [reflexivity|]); (split; reflexivity).
Qed.

(** allocatePhysicalDisplay leaves the addressing mode alone. *)
Lemma allocatePhysicalDisplay_mode (w : World) (h d : Z) :
  exists w' : World, allocatePhysicalDisplay h d w = Ret tt w' /\
    mHasMultiDisplaySupport (hwc w') = mHasMultiDisplaySupport (hwc w).
Proof.
  unfold allocatePhysicalDisplay. run.
  eexists. split; [reflexivity|]. simpl.
  destruct (mInternalHwcDisplayId (hwc w)); simpl; [|reflexivity].
  destruct (negb (_ =? h) && _); reflexivity.
Qed.

(** The allocation step that ends onHotplugConnect. *)
Ltac alloc_case :=
  match goal with
  | |- context [if negb ?c then _ else _] => destruct c; cbn -[allocatePhysicalDisplay]
  end;
  try match goal with
  | |- context [allocatePhysicalDisplay ?h ?d ?w1] =>
      let w2 := fresh "w" in
      let Ha := fresh "Ha" in
      let Hmode := fresh "Hmode" in
      destruct (allocatePhysicalDisplay_mode w1 h d) as (w2 & Ha & Hmode);
      rewrite Ha; simpl; simpl in Hmode
  end.

(** C3 (amended): the addressing mode (mHasMultiDisplaySupport) is set, from
    whether identification data could be read, by every hotplug connection
    of an unmapped handle that arrives while no handle is mapped (the first
    connection, and again after disconnectDisplay has removed every mapped
    handle); any other connection leaves it unchanged. In legacy mode, with
    the primary and secondary handles both tracked and some handle mapped,
    a connection of an unmapped handle is ignored: no identity is returned
    and the registry is unchanged. *)
Lemma hotplugConnect_mode
    (parseDisplayIdentificationData : Z -> list Z -> option DisplayIdentificationInfo)
    (fromPort : Z -> Z) (w : World) (h : Z) (e : Error) (port : Z)
    (data : list Z) (ds1 : DS) :
  getDisplayIdentificationData_dev (dev w) h = ((e, port, data), ds1) ->
  exists res (w' : World),
    onHotplugConnect parseDisplayIdentificationData fromPort h w = Ret res w' /\
    mHasMultiDisplaySupport (hwc w') =
      (if has_value (toPhysicalDisplayId (hwc w) h) then mHasMultiDisplaySupport (hwc w)
       else if bool_decide (mPhysicalDisplayIdMap (hwc w) = ∅) then isNone e
       else mHasMultiDisplaySupport (hwc w)) /\
    (toPhysicalDisplayId (hwc w) h = None ->
     mPhysicalDisplayIdMap (hwc w) <> ∅ ->
     mHasMultiDisplaySupport (hwc w) = false ->
     is_Some (mInternalHwcDisplayId (hwc w)) ->
     is_Some (mExternalHwcDisplayId (hwc w)) ->
     res = None /\ hwc w' = hwc w).
Proof.
  intros Hd. unfold onHotplugConnect. run.
  destruct (mPhysicalDisplayIdMap (hwc w) !! h) as [d|] eqn:Hm; simpl.
  - destruct (mUpdateDeviceProductInfoOnHotplugReconnect (hwc w)); simpl;
      [rewrite Hd; simpl; destruct (parseDisplayIdentificationData port data); simpl|];
      alloc_case; eexists _, _; (split; [reflexivity|]);
      (split; [simpl; first [reflexivity | assumption | exact Hmode | rewrite Hmode; assumption] | intros Hx; discriminate Hx]).
  - rewrite Hd. simpl. case_bool_decide as Hemp; simpl.
    + destruct (shouldIgnoreHotplugConnect _ h (isNone e)); simpl.
      * eexists _, _. split; [reflexivity|]. split; [reflexivity|].
        intros _ Hne. contradiction.
      * destruct (isNone e); simpl;
          try destruct (parseDisplayIdentificationData port data); simpl;
          try destruct (has_value (mInternalHwcDisplayId (hwc w))); simpl;
          alloc_case; eexists _, _; (split; [reflexivity|]);
          (split; [simpl; first [reflexivity | assumption | exact Hmode | rewrite Hmode; assumption]
                  | intros _ Hne; contradiction]).
    + destruct (shouldIgnoreHotplugConnect (hwc w) h (isNone e)) eqn:Hig; simpl.
      * eexists _, _. split; [reflexivity|]. split; [reflexivity|].
        intros _ _ _ _ _. split; reflexivity.
      * destruct (mHasMultiDisplaySupport (hwc w)) eqn:Hmd; simpl;
          try destruct (parseDisplayIdentificationData port data); simpl;
          try destruct (has_value (mInternalHwcDisplayId (hwc w))) eqn:Hint; simpl;
          alloc_case; eexists _, _; (split; [reflexivity|]);
          (split; [simpl; first [reflexivity | assumption | exact Hmode | rewrite Hmode; assumption]|]);
          intros _ _ Hmf [i Hi] [x Hx];
          unfold shouldIgnoreHotplugConnect in Hig;
          rewrite Hmd, Hi, Hx in Hig; simpl in Hig; congruence.
Qed.

End Properties.

(** * Properties of the rest of HWComposer *)

Section MoreProperties.

Context {DS : Type} `{Composer DS} `{DisplayHal DS}.

Local Abbreviation World := (@World DS).

Ltac xrun :=
  cbv [bind ret getHwc putHwc emit devCall halCall fatal modifyDisplayData
    lookupDisplay toPhysicalDisplayId isConnected getDisplayIdentificationData] in *;
  simpl in *.

Ltac xstep :=
  repeat (simpl; first
    [ match goal with H : ?a = _ |- context [?a] => rewrite H end
    | rewrite lookup_insert_eq
    | rewrite insert_insert_eq ]).

(** The effect of allocatePhysicalDisplay on the registry. *)
Lemma allocatePhysicalDisplay_effect (w : World) (h d : Z) :
  (forall r, lookupDisplay (hwc w) d = Some r -> isVirtual r = false) ->
  exists w' : World,
    allocatePhysicalDisplay h d w = Ret tt w' /\
    toPhysicalDisplayId (hwc w') h = Some d /\
    fromPhysicalDisplayId (hwc w') d = Some h /\
    fromVirtualDisplayId (hwc w') d = None /\
    isConnected (hwc w') d = true /\
    (forall h', h' <> h -> toPhysicalDisplayId (hwc w') h' = toPhysicalDisplayId (hwc w) h') /\
    (forall d', d' <> d -> lookupDisplay (hwc w') d' = lookupDisplay (hwc w) d') /\
    dev w' = dev w /\ trace w' = trace w.
Proof.
  intros Hnv. unfold allocatePhysicalDisplay. xrun.
  eexists. split; [reflexivity|].
  unfold fromPhysicalDisplayId, fromVirtualDisplayId, recordWithDisplay.
  destruct (mInternalHwcDisplayId (hwc w)) as [i|] eqn:Hi;
    [destruct (negb (i =? h) && negb (has_value (mExternalHwcDisplayId (hwc w))))|];
    simpl; rewrite !lookup_insert_eq;
    (destruct (mDisplayData (hwc w) !! d) as [r|] eqn:Hr;
     [pose proof (Hnv r eq_refl) as Hv; simpl; rewrite ?Hv|]; simpl);
    repeat split; try reflexivity;
    try (apply lookup_insert_eq);
    intros x Hx; apply lookup_insert_ne; congruence.
Qed.

(** allocatePhysicalDisplay binds the handle to the identity and gives the
    identity a connected physical display with that handle; when the
    identity had no virtual record, both resolutions round-trip. Other
    handles and other identities are untouched. *)
Lemma allocatePhysicalDisplay_resolves (w : World) (h d : Z) :
  (forall r, lookupDisplay (hwc w) d = Some r -> isVirtual r = false) ->
  exists w' : World,
    allocatePhysicalDisplay h d w = Ret tt w' /\
    toPhysicalDisplayId (hwc w') h = Some d /\
    fromPhysicalDisplayId (hwc w') d = Some h /\
    fromVirtualDisplayId (hwc w') d = None /\
    isConnected (hwc w') d = true /\
    (forall h', h' <> h -> toPhysicalDisplayId (hwc w') h' = toPhysicalDisplayId (hwc w) h') /\
    (forall d', d' <> d -> lookupDisplay (hwc w') d' = lookupDisplay (hwc w) d') /\
    dev w' = dev w /\ trace w' = trace w.
Proof. exact (allocatePhysicalDisplay_effect w h d). Qed.

(** The effect of disconnectDisplay on the registry. *)
Lemma disconnectDisplay_effect (w : World) (d : Z) :
  (lookupDisplay (hwc w) d = None -> disconnectDisplay d w = Ret tt w) /\
  (forall r, lookupDisplay (hwc w) d = Some r ->
   let h := hd_id (hwcDisplay r) in
   exists w' : World,
     disconnectDisplay d w = Ret tt w' /\
     lookupDisplay (hwc w') d = None /\
     (forall d', d' <> d -> lookupDisplay (hwc w') d' = lookupDisplay (hwc w) d') /\
     (forall h', h' <> h -> toPhysicalDisplayId (hwc w') h' = toPhysicalDisplayId (hwc w) h') /\
     toPhysicalDisplayId (hwc w') h = None /\
     mInternalHwcDisplayId (hwc w') =
       (if bool_decide (mInternalHwcDisplayId (hwc w) = Some h) then None
        else mInternalHwcDisplayId (hwc w)) /\
     mExternalHwcDisplayId (hwc w') =
       (if bool_decide (mInternalHwcDisplayId (hwc w) = Some h)
        then mExternalHwcDisplayId (hwc w)
        else if bool_decide (mExternalHwcDisplayId (hwc w) = Some h) then None
        else mExternalHwcDisplayId (hwc w)) /\
     dev w' = dev w /\ trace w' = trace w).
Proof.
  split.
  - intros Hn. unfold disconnectDisplay. xrun. rewrite Hn. destruct w; reflexivity.
  - intros r Hr. cbv zeta. unfold disconnectDisplay. xrun. rewrite Hr.
    eexists. split; [reflexivity|].
    repeat case_bool_decide; simpl; repeat split; try reflexivity;
      try (apply lookup_delete_eq); try congruence;
      intros x Hx; apply lookup_delete_ne; congruence.
Qed.

(** disconnectDisplay removes exactly the given identity and its handle:
    the identity has no record afterwards, the handle is unbound, and every
    other record and every other handle binding is kept. It clears
    the internal slot if the handle held it, otherwise the external slot if
    the handle held that. For an unknown identity it does nothing. *)
Lemma disconnectDisplay_removes_only (w : World) (d : Z) :
  (lookupDisplay (hwc w) d = None -> disconnectDisplay d w = Ret tt w) /\
  (forall r, lookupDisplay (hwc w) d = Some r ->
   let h := hd_id (hwcDisplay r) in
   exists w' : World,
     disconnectDisplay d w = Ret tt w' /\
     lookupDisplay (hwc w') d = None /\
     (forall d', d' <> d -> lookupDisplay (hwc w') d' = lookupDisplay (hwc w) d') /\
     (forall h', h' <> h -> toPhysicalDisplayId (hwc w') h' = toPhysicalDisplayId (hwc w) h') /\
     toPhysicalDisplayId (hwc w') h = None /\
     mInternalHwcDisplayId (hwc w') =
       (if bool_decide (mInternalHwcDisplayId (hwc w) = Some h) then None
        else mInternalHwcDisplayId (hwc w)) /\
     mExternalHwcDisplayId (hwc w') =
       (if bool_decide (mInternalHwcDisplayId (hwc w) = Some h)
        then mExternalHwcDisplayId (hwc w)
        else if bool_decide (mExternalHwcDisplayId (hwc w) = Some h) then None
        else mExternalHwcDisplayId (hwc w)) /\
     dev w' = dev w /\ trace w' = trace w).
Proof. exact (disconnectDisplay_effect w d). Qed.

(** Once disconnectDisplay has destroyed an identity, vsync events for its
    old handle are dropped: onVsync reports failure and changes nothing. *)
Lemma onVsync_after_disconnectDisplay (w w' : World) (d t : Z) (r : DisplayData) :
  lookupDisplay (hwc w) d = Some r ->
  disconnectDisplay d w = Ret tt w' ->
  onVsync (hd_id (hwcDisplay r)) t w' = Ret false w'.
Proof.
  intros Hr Hd.
  destruct (proj2 (disconnectDisplay_effect w d) r Hr)
    as (w1 & Hd1 & _ & _ & _ & Hh & _).
  rewrite Hd in Hd1. injection Hd1 as <-.
  unfold onVsync. xrun. rewrite Hh. reflexivity.
Qed.

(** After clearReleaseFences every layer of the display gets Fence::NO_FENCE;
    the present fence and every other display are untouched. An unknown
    identity is left alone. *)
Lemma clearReleaseFences_spec (w : World) (d : Z) :
  exists w' : World,
    clearReleaseFences d w = Ret tt w' /\
    (forall layer, getLayerReleaseFence (hwc w') d layer = NO_FENCE) /\
    (forall d', getPresentFence (hwc w') d' = getPresentFence (hwc w) d') /\
    (forall d', d' <> d -> lookupDisplay (hwc w') d' = lookupDisplay (hwc w) d') /\
    (lookupDisplay (hwc w) d = None -> w' = w).
Proof.
  unfold clearReleaseFences. xrun.
  unfold getLayerReleaseFence, getPresentFence.
  destruct (mDisplayData (hwc w) !! d) as [r|] eqn:Hr.
  - eexists. split; [reflexivity|]. simpl. rewrite lookup_insert_eq.
    split; [intros l; simpl; rewrite ?lookup_empty; reflexivity|].
    split; [|split; [intros x Hx; apply lookup_insert_ne; congruence | discriminate]].
    intros x. destruct (decide (x = d)) as [->|Hx].
    + rewrite lookup_insert_eq, Hr. reflexivity.
    + rewrite lookup_insert_ne by congruence. reflexivity.
  - exists w. destruct w. simpl in *. rewrite Hr.
    repeat split; reflexivity.
Qed.

(** A bare hotplug-disconnect followed by a hotplug-connect of the same
    bound handle reports the bound identity twice and keeps the handle bound
    to it. The identity's record keeps all its data (present fence, release
    fences, vsync state and the rest); only its display object is replaced,
    by a new connected physical display for the handle. *)
Lemma hotplug_disconnect_reconnect_replaces_display
    (parseDisplayIdentificationData : Z -> list Z -> option DisplayIdentificationInfo)
    (fromPort : Z -> Z) (w : World) (h d : Z) (r : DisplayData) :
  toPhysicalDisplayId (hwc w) h = Some d ->
  lookupDisplay (hwc w) d = Some r ->
  exists i1 i2 (w1 w2 : World),
    onHotplugDisconnect h w = Ret (Some i1) w1 /\
    onHotplugConnect parseDisplayIdentificationData fromPort h w1 = Ret (Some i2) w2 /\
    id i1 = d /\ id i2 = d /\
    lookupDisplay (hwc w2) d = Some (set_hwcDisplay (mkHwcDisplay h PHYSICAL true) r) /\
    toPhysicalDisplayId (hwc w2) h = Some d.
Proof.
  intros Hm Hr.
  destruct r as [v [hid ht hc] lpf rf vs pe tt' ve lv];
  destruct (mUpdateDeviceProductInfoOnHotplugReconnect (hwc w)) eqn:Hu;
    [destruct (getDisplayIdentificationData_dev (dev w) h) as [[[e port] data] ds1] eqn:Hg;
     destruct (parseDisplayIdentificationData port data) eqn:Hp|];
    destruct hc;
    destruct (mInternalHwcDisplayId (hwc w)) as [x|] eqn:Hi;
    try destruct (negb (x =? h) && negb (has_value (mExternalHwcDisplayId (hwc w)))) eqn:Hx;
    unfold onHotplugDisconnect, onHotplugConnect, allocatePhysicalDisplay; xrun; xstep;
    eexists _, _, _, _; (split; [reflexivity|]);
    cbv [set_hwcDisplay setConnected recordWithDisplay]; cbn [dev hwc trace]; xrun; xstep;
    do 3 (split; [reflexivity|]);
    cbv [set_mDisplayData set_mPhysicalDisplayIdMap set_mExternalHwcDisplayId
         set_mInternalHwcDisplayId]; cbn [mDisplayData mPhysicalDisplayIdMap]; xstep;
    split; reflexivity.
Qed.

(** onHotplugDisconnect never destroys anything: the handle bindings and the
    set of registered identities are unchanged, and no device call is made.
    It reports no identity exactly when the handle is unbound, and otherwise
    the bound identity, whether or not that identity is registered. *)
Lemma onHotplugDisconnect_keeps_registry (w : World) (h : Z) :
  exists res (w' : World),
    onHotplugDisconnect h w = Ret res w' /\
    mPhysicalDisplayIdMap (hwc w') = mPhysicalDisplayIdMap (hwc w) /\
    (forall d, is_Some (lookupDisplay (hwc w') d) <-> is_Some (lookupDisplay (hwc w) d)) /\
    (res = None <-> toPhysicalDisplayId (hwc w) h = None) /\
    (forall i, res = Some i -> toPhysicalDisplayId (hwc w) h = Some (id i)) /\
    dev w' = dev w /\ trace w' = trace w.
Proof.
  unfold onHotplugDisconnect. xrun.
  destruct (mPhysicalDisplayIdMap (hwc w) !! h) as [d|] eqn:Hm; simpl.
  - destruct (mDisplayData (hwc w) !! d) as [r|] eqn:Hr; simpl;
      [destruct (hd_connected (hwcDisplay r)); simpl; [rewrite Hr; simpl|]|];
      eexists _, _; (split; [reflexivity|]); simpl;
      (split; [reflexivity|]);
      (split; [|split; [split; discriminate|
                split; [intros i Hi; injection Hi as <-; reflexivity | split; reflexivity]]]);
      try (intros; reflexivity).
    intros x. destruct (decide (x = d)) as [->|Hx].
    + rewrite lookup_insert_eq, Hr. split; intros _; eexists; reflexivity.
    + rewrite lookup_insert_ne by congruence. reflexivity.
  - eexists _, _. split; [reflexivity|]. simpl.
    repeat split; try reflexivity; try discriminate; try tauto.
Qed.

(** In generalized mode, with some handle already bound, the connection of a
    new handle whose identification data cannot be read is ignored: no
    identity is reported and the registry is unchanged. *)
Lemma hotplugConnect_generalized_requires_data
    (parseDisplayIdentificationData : Z -> list Z -> option DisplayIdentificationInfo)
    (fromPort : Z -> Z) (w : World) (h : Z) (e : Error) (port : Z)
    (data : list Z) (ds1 : DS) :
  getDisplayIdentificationData_dev (dev w) h = ((e, port, data), ds1) ->
  isNone e = false ->
  toPhysicalDisplayId (hwc w) h = None ->
  mPhysicalDisplayIdMap (hwc w) <> ∅ ->
  mHasMultiDisplaySupport (hwc w) = true ->
  exists w' : World,
    onHotplugConnect parseDisplayIdentificationData fromPort h w = Ret None w' /\
    hwc w' = hwc w.
Proof.
  intros Hd He Hm Hne Hmd. unfold onHotplugConnect. xrun.
  rewrite Hm, Hd. simpl. case_bool_decide; [contradiction|]. simpl.
  unfold shouldIgnoreHotplugConnect. rewrite Hmd, He. simpl.
  eexists. split; reflexivity.
Qed.

(** In generalized mode (or for the first handle ever bound), a new handle
    whose identification data is read and parsed to an identity that is not
    connected yet is bound to that identity: the identity is reported,
    resolves both ways with the handle, and is connected. *)
Lemma hotplugConnect_generalized_binds
    (parseDisplayIdentificationData : Z -> list Z -> option DisplayIdentificationInfo)
    (fromPort : Z -> Z) (w : World) (h port : Z) (data : list Z) (ds1 : DS)
    (i : DisplayIdentificationInfo) :
  getDisplayIdentificationData_dev (dev w) h = ((NONE, port, data), ds1) ->
  toPhysicalDisplayId (hwc w) h = None ->
  mPhysicalDisplayIdMap (hwc w) = ∅ \/ mHasMultiDisplaySupport (hwc w) = true ->
  parseDisplayIdentificationData port data = Some i ->
  isConnected (hwc w) (id i) = false ->
  (forall r, lookupDisplay (hwc w) (id i) = Some r -> isVirtual r = false) ->
  exists w' : World,
    onHotplugConnect parseDisplayIdentificationData fromPort h w = Ret (Some i) w' /\
    toPhysicalDisplayId (hwc w') h = Some (id i) /\
    fromPhysicalDisplayId (hwc w') (id i) = Some h /\
    isConnected (hwc w') (id i) = true /\
    mHasMultiDisplaySupport (hwc w') = true.
Proof.
  intros Hd Hm Hmode Hp Hc Hnv. unfold onHotplugConnect.
  cbv [bind ret getHwc putHwc fatal toPhysicalDisplayId getDisplayIdentificationData
       devCall lookupDisplay] in *.
  cbn -[allocatePhysicalDisplay isConnected]. rewrite Hm, Hd.
  cbn -[allocatePhysicalDisplay isConnected].
  case_bool_decide as Hemp; cbn -[allocatePhysicalDisplay isConnected];
    [|destruct Hmode as [Hmode|Hmode]; [contradiction|];
      unfold shouldIgnoreHotplugConnect; rewrite Hmode; cbn -[allocatePhysicalDisplay isConnected]];
    rewrite Hp; cbn -[allocatePhysicalDisplay isConnected];
    (match goal with
     | |- context [isConnected ?s (id i)] =>
         replace (isConnected s (id i)) with false by (rewrite <- Hc; reflexivity)
     end); cbn -[allocatePhysicalDisplay];
    match goal with
    | |- context [allocatePhysicalDisplay ?h ?d ?w1] =>
        destruct (allocatePhysicalDisplay_effect w1 h d) as (w2 & Ha & H1 & H2 & _ & H4 & _);
        [exact Hnv|];
        destruct (allocatePhysicalDisplay_mode w1 h d) as (w3 & Ha' & Hmd);
        rewrite Ha in Ha'; injection Ha' as <-;
        rewrite Ha; cbn; exists w2; repeat split; try assumption;
        rewrite Hmd; simpl; try reflexivity; try assumption
    end.
Qed.

(** The frame operations and setPowerMode reject an identity that has no
    record with BAD_INDEX and leave the world untouched: no device call, no
    state change. getDeviceCompositionChanges hands the caller's outChanges
    back unchanged. *)
Lemma unknown_display_frame_bad_index (w : World) (d : Z) :
  lookupDisplay (hwc w) d = None ->
  (forall slot f target dataspace,
     setClientTarget d slot f target dataspace w = Ret BAD_INDEX w) /\
  (forall outChanges,
     getDeviceCompositionChanges d outChanges w = Ret (BAD_INDEX, outChanges) w) /\
  (forall t p, presentAndGetReleaseFences d t p w = Ret BAD_INDEX w) /\
  (forall mode, setPowerMode d mode w = Ret BAD_INDEX w).
Proof.
  intros Hd. unfold lookupDisplay in Hd.
  repeat split; intros;
    unfold setClientTarget, getDeviceCompositionChanges, presentAndGetReleaseFences,
      setPowerMode;
    cbv [bind ret getHwc]; rewrite Hd; reflexivity.
Qed.

(** The display setters setAutoLowLatencyMode, setContentType,
    setDisplayContentSamplingEnabled and setDisplayElapseTime reject an
    identity that has no record with BAD_INDEX and leave the world
    untouched. *)
Lemma unknown_display_setters_bad_index (w : World) (d : Z) :
  lookupDisplay (hwc w) d = None ->
  (forall on, setAutoLowLatencyMode d on w = Ret BAD_INDEX w) /\
  (forall contentType, setContentType d contentType w = Ret BAD_INDEX w) /\
  (forall enabled mask maxFrames,
     setDisplayContentSamplingEnabled d enabled mask maxFrames w = Ret BAD_INDEX w) /\
  (forall timeStamp, setDisplayElapseTime d timeStamp w = Ret BAD_INDEX w).
Proof.
  intros Hd. unfold lookupDisplay in Hd.
  repeat split; intros;
    unfold setAutoLowLatencyMode, setContentType,
      setDisplayContentSamplingEnabled, setDisplayElapseTime;
    cbv [bind ret getHwc]; rewrite Hd; reflexivity.
Qed.

(** The display queries on an identity with no record return their
    defaults (no modes, no active mode, an internal connection, no vsync
    period switching, status 0 with no period written) and leave the world
    untouched. *)
Lemma unknown_display_query_defaults (w : World) (d : Z) :
  lookupDisplay (hwc w) d = None ->
  getModes d w = Ret [] w /\
  getActiveMode d w = Ret None w /\
  getDisplayConnectionType d w = Ret Internal w /\
  isVsyncPeriodSwitchSupported d w = Ret false w /\
  getDisplayVsyncPeriod d w = Ret (NO_ERROR, None) w.
Proof.
  intros Hd. unfold lookupDisplay in Hd.
  repeat split;
    unfold getModes, getActiveMode, getDisplayConnectionType,
      isVsyncPeriodSwitchSupported, getDisplayVsyncPeriod;
    cbv [bind ret getHwc]; rewrite Hd; reflexivity.
Qed.

(** setVsyncEnabled on a physical display: asking for the state already
    stored does nothing at all (no device call, no trace); otherwise the
    device is asked, and only if it accepted the change is the new state
    stored and the HW_VSYNC_ON_<id> counter traced (1 for ENABLE, 0
    otherwise), the rest of the registry being left as it is. *)
Lemma setVsyncEnabled_stores_on_success (w : World) (d : Z) (enabled : Vsync.t)
    (r : DisplayData) :
  lookupDisplay (hwc w) d = Some r ->
  isVirtual r = false ->
  (vsyncEnabled r = enabled -> setVsyncEnabled d enabled w = Ret tt w) /\
  (vsyncEnabled r <> enabled -> forall e ds',
     setVsyncEnabled_dev (dev w) (hd_id (hwcDisplay r)) enabled = (e, ds') ->
     setVsyncEnabled d enabled w =
       Ret tt (if isNone e
               then mkWorld
                      (set_mDisplayData
                         (<[d := set_vsyncEnabled enabled r]> (mDisplayData (hwc w))) (hwc w))
                      ds' (EvTraceVsyncOn d (bool_decide (enabled = Vsync.ENABLE)) :: trace w)
               else mkWorld (hwc w) ds' (trace w))).
Proof.
  intros Hd Hv. unfold lookupDisplay in Hd. unfold setVsyncEnabled.
  cbv [bind ret getHwc putHwc halCall fatal modifyDisplayData emit]. rewrite Hd, Hv.
  split.
  - intros <-. rewrite bool_decide_true by reflexivity. reflexivity.
  - intros Hne e ds' Hdev. rewrite bool_decide_false by congruence.
    rewrite Hdev. destruct e; simpl; try reflexivity. rewrite Hd. reflexivity.
Qed.

Ltac split_pairs :=
  repeat (simpl; match goal with
  | |- context [match ?x with pair _ _ => _ end] => destruct x
  end).

(** setPowerMode on a physical display always reports success, whatever
    the device answers, and never changes the registry; ON_SUSPEND (like
    any mode other than OFF, ON, DOZE and DOZE_SUSPEND) makes no device call
    at all. *)
Lemma setPowerMode_always_no_error (w : World) (d : Z) (mode : PowerMode)
    (r : DisplayData) :
  lookupDisplay (hwc w) d = Some r ->
  isVirtual r = false ->
  exists w' : World,
    setPowerMode d mode w = Ret NO_ERROR w' /\
    hwc w' = hwc w /\ trace w' = trace w /\
    (mode = ON_SUSPEND -> w' = w).
Proof.
  intros Hd Hv. unfold lookupDisplay in Hd. unfold setPowerMode.
  cbv [bind ret getHwc halCall fatal]. rewrite Hd, Hv.
  destruct mode; split_pairs;
    eexists; (split; [reflexivity|]); simpl; repeat split; try discriminate.
Qed.

(** DOZE and DOZE_SUSPEND are passed to the device only if the display
    reports doze support; otherwise the display is set to ON instead. The
    error of the support query is ignored: only the reported flag counts. *)
Lemma setPowerMode_doze_fallback (w : World) (d : Z) (mode : PowerMode)
    (r : DisplayData) (e : Error) (supportsDoze : bool) (ds1 : DS) :
  lookupDisplay (hwc w) d = Some r ->
  isVirtual r = false ->
  mode = DOZE \/ mode = DOZE_SUSPEND ->
  supportsDoze_dev (dev w) (hd_id (hwcDisplay r)) = ((e, supportsDoze), ds1) ->
  setPowerMode d mode w =
    Ret NO_ERROR (mkWorld (hwc w)
      (snd (setPowerMode_dev ds1 (hd_id (hwcDisplay r))
              (if supportsDoze then mode else ON)))
      (trace w)).
Proof.
  intros Hd Hv Hm Hs. unfold lookupDisplay in Hd. unfold setPowerMode.
  cbv [bind ret getHwc halCall fatal]. rewrite Hd, Hv.
  destruct Hm as [-> | ->]; rewrite Hs; simpl;
    destruct (setPowerMode_dev ds1 _ _); reflexivity.
Qed.

(** The display setters translate the device error into a status: NONE is
    success, BAD_PARAMETER is BAD_VALUE, and anything else is UNKNOWN_ERROR,
    except that setAutoLowLatencyMode, setContentType and
    setDisplayContentSamplingEnabled report UNSUPPORTED as
    INVALID_OPERATION while setDisplayElapseTime reports it as
    UNKNOWN_ERROR. None of them touches the registry. *)
Lemma display_setters_translate_errors (w : World) (d : Z) (r : DisplayData) :
  lookupDisplay (hwc w) d = Some r ->
  let h := hd_id (hwcDisplay r) in
  let translated e :=
    match e with
    | UNSUPPORTED => INVALID_OPERATION | BAD_PARAMETER => BAD_VALUE
    | NONE => NO_ERROR | _ => UNKNOWN_ERROR
    end in
  (forall on e ds', setAutoLowLatencyMode_dev (dev w) h on = (e, ds') ->
     setAutoLowLatencyMode d on w = Ret (translated e) (mkWorld (hwc w) ds' (trace w))) /\
  (forall ct e ds', setContentType_dev (dev w) h ct = (e, ds') ->
     setContentType d ct w = Ret (translated e) (mkWorld (hwc w) ds' (trace w))) /\
  (forall en mask n e ds',
     setDisplayContentSamplingEnabled_dev (dev w) h en mask n = (e, ds') ->
     setDisplayContentSamplingEnabled d en mask n w =
       Ret (translated e) (mkWorld (hwc w) ds' (trace w))) /\
  (forall ts e ds', setDisplayElapseTime_dev (dev w) h ts = (e, ds') ->
     setDisplayElapseTime d ts w =
       Ret (match e with UNSUPPORTED => UNKNOWN_ERROR | _ => translated e end)
         (mkWorld (hwc w) ds' (trace w))).
Proof.
  intros Hd h translated. unfold lookupDisplay in Hd.
  repeat split; intros until ds'; intros Hdev;
    unfold setAutoLowLatencyMode, setContentType, setDisplayContentSamplingEnabled,
      setDisplayElapseTime;
    cbv [bind ret getHwc halCall]; rewrite Hd; subst h; rewrite Hdev;
    destruct e; reflexivity.
Qed.

(** getActiveMode on a physical display returns no mode only when the
    device reports BAD_CONFIG; for any other error the configuration id the
    device wrote is returned all the same. The registry is unchanged. *)
Lemma getActiveMode_only_bad_config_fails (w : World) (d : Z) (r : DisplayData)
    (e : Error) (configId : Z) (ds' : DS) :
  lookupDisplay (hwc w) d = Some r ->
  isVirtual r = false ->
  getActiveConfig_dev (dev w) (hd_id (hwcDisplay r)) = ((e, configId), ds') ->
  exists res,
    getActiveMode d w = Ret res (mkWorld (hwc w) ds' (trace w)) /\
    (e = BAD_CONFIG -> res = None) /\
    (e <> BAD_CONFIG -> res = Some configId).
Proof.
  intros Hd Hv Hdev. unfold lookupDisplay in Hd. unfold getActiveMode.
  cbv [bind ret getHwc halCall fatal fromPhysicalDisplayId]. rewrite Hd, Hv, Hdev.
  destruct e; eexists; (split; [reflexivity|]); split; congruence.
Qed.

(** getDisplayConnectionType returns the type the display reports; if the
    query fails it falls back to Internal for the internal display's handle
    and to External for any other handle. The registry is unchanged. *)
Lemma getDisplayConnectionType_fallback (w : World) (d : Z) (r : DisplayData)
    (e : Error) (type : DisplayConnectionType) (ds' : DS) :
  lookupDisplay (hwc w) d = Some r ->
  getConnectionType_dev (dev w) (hd_id (hwcDisplay r)) = ((e, type), ds') ->
  exists res,
    getDisplayConnectionType d w = Ret res (mkWorld (hwc w) ds' (trace w)) /\
    (e = NONE -> res = type) /\
    (e <> NONE ->
       (res = Internal <-> mInternalHwcDisplayId (hwc w) = Some (hd_id (hwcDisplay r)))).
Proof.
  intros Hd Hdev. unfold lookupDisplay in Hd. unfold getDisplayConnectionType.
  cbv [bind ret getHwc halCall]. rewrite Hd, Hdev.
  destruct e; simpl; eexists; (split; [reflexivity|]);
    (split; [intros; first [reflexivity | discriminate]|]);
    intros Hne; try congruence;
    case_bool_decide as Hi; split; intros Hx; congruence.
Qed.

(** getDisplayVsyncPeriod on a physical display: if the display does not
    support vsync period switching it reports INVALID_OPERATION and asks
    for no period; otherwise it reports success (status 0) whether or not
    the period query fails, and writes the period out only when the query
    succeeds. The registry is unchanged. *)
Lemma getDisplayVsyncPeriod_spec (w : World) (d : Z) (r : DisplayData)
    (supported : bool) (ds1 : DS) (e : Error) (period : Z) (ds2 : DS) :
  lookupDisplay (hwc w) d = Some r ->
  isVirtual r = false ->
  isVsyncPeriodSwitchSupported_dev (dev w) (hd_id (hwcDisplay r)) = (supported, ds1) ->
  getDisplayVsyncPeriod_dev ds1 (hd_id (hwcDisplay r)) = ((e, period), ds2) ->
  (supported = false ->
     getDisplayVsyncPeriod d w =
       Ret (INVALID_OPERATION, None) (mkWorld (hwc w) ds1 (trace w))) /\
  (supported = true ->
     getDisplayVsyncPeriod d w =
       Ret (NO_ERROR, if isNone e then Some period else None)
         (mkWorld (hwc w) ds2 (trace w))).
Proof.
  intros Hd Hv Hs Hp. unfold lookupDisplay in Hd.
  unfold getDisplayVsyncPeriod, isVsyncPeriodSwitchSupported.
  cbv [bind ret getHwc halCall fatal fromPhysicalDisplayId].
  split; intros ->;
    repeat (simpl; first [rewrite Hd | rewrite Hs | rewrite Hv | rewrite Hp]);
    [reflexivity | destruct e; reflexivity].
Qed.

(** getAttribute on a bound handle returns (the device's value, or -1 when
    the query fails) without changing the registry or the trace. *)
Lemma getAttribute_bound (w : World) (h configId d' : Z) (a : Attribute) :
  toPhysicalDisplayId (hwc w) h = Some d' ->
  exists v (w' : World),
    getAttribute h configId a w = Ret v w' /\ hwc w' = hwc w /\ trace w' = trace w.
Proof.
  intros Hm. unfold getAttribute.
  cbv [bind ret getHwc halCall fatal toPhysicalDisplayId] in *.
  destruct (getDisplayAttribute_dev (dev w) h configId a) as [[e v] ds'].
  destruct (isNone e); simpl; [|rewrite Hm];
    eexists _, _; split; try reflexivity; split; reflexivity.
Qed.

Lemma modesOf_ids (h d' : Z) (configIds : list Z) :
  forall w : World,
  toPhysicalDisplayId (hwc w) h = Some d' ->
  exists ms (w' : World),
    modesOf h configIds w = Ret ms w' /\ map hwcId ms = configIds /\
    hwc w' = hwc w /\ trace w' = trace w.
Proof.
  induction configIds as [|c rest IH]; intros w Hm.
  - exists [], w. repeat split.
  - cbn [modesOf]. unfold bind.
    repeat match goal with
    | |- context [getAttribute ?h ?c ?a ?w0] =>
        let v := fresh "v" in let w1 := fresh "w" in
        let E := fresh "E" in let Hh := fresh "Hh" in let Ht := fresh "Ht" in
        destruct (getAttribute_bound w0 h c d' a) as (v & w1 & E & Hh & Ht);
        [congruence|]; rewrite E
    end.
    match goal with
    | |- context [modesOf h rest ?w0] =>
        destruct (IH w0) as (ms & w' & Erest & Hids & Hh' & Ht'); [congruence|];
        rewrite Erest
    end.
    eexists _, _. unfold ret. split; [reflexivity|].
    simpl. rewrite Hids. repeat split; congruence.
Qed.

(** getModes on a display whose handle is bound: if the configuration
    query fails there are no modes; otherwise there is one mode per
    configuration id, in the device's order. The registry and the trace
    are unchanged. *)
Lemma getModes_one_mode_per_config (w : World) (d d' : Z) (r : DisplayData)
    (e : Error) (configIds : list Z) (ds1 : DS) :
  lookupDisplay (hwc w) d = Some r ->
  toPhysicalDisplayId (hwc w) (hd_id (hwcDisplay r)) = Some d' ->
  getDisplayConfigs_dev (dev w) (hd_id (hwcDisplay r)) = ((e, configIds), ds1) ->
  exists ms (w' : World),
    getModes d w = Ret ms w' /\ hwc w' = hwc w /\ trace w' = trace w /\
    (isNone e = false -> ms = []) /\
    (isNone e = true -> map hwcId ms = configIds).
Proof.
  intros Hd Hm Hc. unfold lookupDisplay in Hd. unfold getModes.
  cbv [bind ret getHwc halCall fatal]. rewrite Hd, Hc. simpl.
  destruct (isNone e) eqn:He; simpl.
  - destruct (modesOf_ids (hd_id (hwcDisplay r)) d' configIds
                (mkWorld (hwc w) ds1 (trace w)) Hm)
      as (ms & w' & E & Hids & Hh & Ht).
    unfold bind in E. rewrite E. exists ms, w'. repeat split; auto; discriminate.
  - unfold toPhysicalDisplayId in *. simpl. rewrite Hm.
    eexists _, _. repeat split; discriminate.
Qed.

Lemma emplaceAll_union (kvs : list (string * bool)) :
  forall m, emplaceAll kvs m = m ∪ list_to_map kvs.
Proof.
  induction kvs as [|[k v] rest IH]; intros m; cbn [emplaceAll].
  - by rewrite list_to_map_nil, map_union_empty.
  - rewrite IH, list_to_map_cons. apply map_eq. intros i. unfold emplace.
    destruct (m !! k) as [x|] eqn:Hk; rewrite !lookup_union;
      (destruct (decide (i = k)) as [->|Hik];
       [rewrite ?lookup_insert_eq, ?Hk | rewrite ?lookup_insert_ne by congruence]);
      try destruct (m !! i); try destruct (list_to_map rest !! i);
      try destruct (list_to_map rest !! k);
      reflexivity.
Qed.

(** loadLayerMetadataSupport drops what was loaded before. If the device
    query fails the supported metadata is empty; otherwise each key the
    device lists is supported, with the mandatory flag of its first
    occurrence in the device's list (a later duplicate is ignored).
    Capabilities and the registration flag are untouched. *)
Lemma loadLayerMetadataSupport_first_wins (cs : CallbackState) (ds : DS)
    (e : Error) (keys : list (string * bool)) (ds' : DS) :
  getLayerGenericMetadataKeys_dev ds = ((e, keys), ds') ->
  exists cs',
    loadLayerMetadataSupport cs ds = (cs', ds') /\
    mCapabilities cs' = mCapabilities cs /\
    mRegisteredCallback cs' = mRegisteredCallback cs /\
    (isNone e = false -> mSupportedLayerGenericMetadata cs' = ∅) /\
    (isNone e = true ->
       (forall k, is_Some (mSupportedLayerGenericMetadata cs' !! k) <-> k ∈ keys.*1) /\
       (forall l1 k mandatory l2, keys = l1 ++ (k, mandatory) :: l2 -> k ∉ l1.*1 ->
          mSupportedLayerGenericMetadata cs' !! k = Some mandatory)).
Proof.
  intros Hdev. unfold loadLayerMetadataSupport. rewrite Hdev.
  destruct (isNone e) eqn:He; simpl; eexists; (split; [reflexivity|]); simpl;
    repeat split; try discriminate; try reflexivity.
  - intros Hs. rewrite emplaceAll_union, map_empty_union in Hs.
    destruct Hs as [x Hx]. apply elem_of_list_to_map_2 in Hx.
    apply list_elem_of_fmap. exists (k, x). split; [reflexivity|exact Hx].
  - intros Hk. rewrite emplaceAll_union, map_empty_union.
    apply list_elem_of_fmap in Hk as [[k' x] [Heq Hin]]. simpl in Heq; subst k'.
    destruct (list_to_map keys !! k) as [y|] eqn:Hl; [eexists; reflexivity|].
    exfalso. apply not_elem_of_list_to_map_2 in Hl.
    apply Hl. apply list_elem_of_fmap. exists (k, x). split; [reflexivity|exact Hin].
  - intros l1 k mandatory l2 -> Hk.
    rewrite emplaceAll_union, map_empty_union, list_to_map_app, lookup_union.
    rewrite (not_elem_of_list_to_map_1 l1 k Hk).
    rewrite list_to_map_cons, lookup_insert_eq. reflexivity.
Qed.

Lemma insertCapabilities_elem (caps : list Z) :
  forall s c, c ∈ insertCapabilities caps s <-> c ∈ caps \/ c ∈ s.
Proof.
  induction caps as [|x rest IH]; intros s c; simpl.
  - rewrite elem_of_nil. tauto.
  - rewrite IH, elem_of_cons, elem_of_union, elem_of_singleton. tauto.
Qed.

(** setCallback registers the callback with the composer at most once: the
    first call registers it (with the composer's vsync period switching
    support) and sets the registration flag; a call with the flag already
    set only reloads capabilities and metadata. Either way capabilities
    accumulate: afterwards hasCapability holds exactly for what was there
    before or what the device reports now. *)
Lemma setCallback_registers_once (callback : Z) (cs : CallbackState) (ds : DS) :
  let ds2 := snd (getLayerGenericMetadataKeys_dev (snd (getCapabilities_dev ds))) in
  mRegisteredCallback (fst (setCallback callback cs ds)) = true /\
  snd (setCallback callback cs ds) =
    (if mRegisteredCallback cs then ds2
     else registerCallback_dev ds2 callback (composerIsVsyncPeriodSwitchSupported ds2)) /\
  (forall c, hasCapability (fst (setCallback callback cs ds)) c = true <->
     c ∈ fst (getCapabilities_dev ds) \/ c ∈ mCapabilities cs).
Proof.
  intros ds2. subst ds2.
  unfold setCallback, loadCapabilities, loadLayerMetadataSupport, hasCapability.
  destruct (getCapabilities_dev ds) as [caps ds1]. simpl.
  destruct (getLayerGenericMetadataKeys_dev ds1) as [[e keys] ds2]. simpl.
  destruct (mRegisteredCallback cs) eqn:Hr;
    destruct (isNone e); simpl; rewrite ?Hr;
    (split; [reflexivity|]); (split; [reflexivity|]);
    intros c; rewrite bool_decide_eq_true; apply insertCapabilities_elem.
Qed.

(** A frame committed by the fast path (presentOrValidate state 1): the
    present fence and the release fences fetched right after the commit are
    stored, even when the fence query reports an error, and the following
    presentAndGetReleaseFences, which takes the skipped-validate branch,
    keeps them: afterwards getPresentFence returns the fast path's present
    fence and getLayerReleaseFence answers from the fetched fences. *)
Lemma skipped_frame_keeps_fast_path_fences (w : World) (d : Z) (r : DisplayData)
    (outChanges : option DeviceRequestedChanges) (e : Error) (nT nR : Z)
    (pf : Fence) (ds1 : DS) (ge : Error) (gm : gmap Z Fence) (ds2 : DS)
    (earliestPresentTime previousSignalTime : Z) :
  lookupDisplay (hwc w) d = Some r ->
  hd_connected (hwcDisplay r) = true ->
  presentOrValidate_dev (dev w) (hd_id (hwcDisplay r)) = ((e, nT, nR, pf, 1), ds1) ->
  e = NONE \/ e = HAS_CHANGES ->
  getReleaseFences_dev ds1 (hd_id (hwcDisplay r)) = ((ge, gm), ds2) ->
  exists (w1 : World) st (w2 : World),
    getDeviceCompositionChanges d outChanges w = Ret (NO_ERROR, outChanges) w1 /\
    presentAndGetReleaseFences d earliestPresentTime previousSignalTime w1 = Ret st w2 /\
    getPresentFence (hwc w2) d = pf /\
    (forall layer, getLayerReleaseFence (hwc w2) d layer =
       match gm !! layer with Some f => f | None => NO_FENCE end).
Proof.
  intros Hr Hc Hpov He Hg.
  assert (Hok : negb (hasChangesError e) && negb (isNone e) = false)
    by (destruct He as [-> | ->]; reflexivity).
  destruct (executeCommands_dev ds2) as [xe ds3] eqn:Hx.
  destruct (isNone xe) eqn:Hxe, (isNone ge) eqn:Hge;
  unfold getDeviceCompositionChanges; xrun; xstep;
  eexists _, _, _; (split; [reflexivity|]);
  unfold presentAndGetReleaseFences; xrun; xstep;
    (split; [reflexivity|]);
    unfold getPresentFence, getLayerReleaseFence; xstep;
    (split; [reflexivity|]); intros layer; reflexivity.
Qed.

(** A successful allocateVirtualDisplay binds the identity to the handle
    the device created: fromVirtualDisplayId returns that handle and
    fromPhysicalDisplayId none. The other records and the handle bindings
    of physical displays are untouched. *)
Lemma allocateVirtualDisplay_binds_virtual_handle (w : World)
    (displayId width height format : Z) (mirror : option Z) (format' : Z) (w' : World) :
  -2 ^ 31 <= width < 2 ^ 31 ->
  -2 ^ 31 <= height < 2 ^ 31 ->
  allocateVirtualDisplay displayId width height format mirror w = Ret (true, format') w' ->
  let hwcMirrorId :=
    match mirror with Some m => fromPhysicalDisplayId (hwc w) m | None => None end in
  fromVirtualDisplayId (hwc w') displayId =
    Some (snd (fst (createVirtualDisplay_dev (dev w) width height format hwcMirrorId))) /\
  fromPhysicalDisplayId (hwc w') displayId = None /\
  (forall d, d <> displayId -> lookupDisplay (hwc w') d = lookupDisplay (hwc w) d) /\
  mPhysicalDisplayIdMap (hwc w') = mPhysicalDisplayIdMap (hwc w).
Proof.
  intros Hw Hh E hwcMirrorId. unfold allocateVirtualDisplay in E.
  destruct (sizeIsValid width height) eqn:Hvalid; [|discriminate E].
  unfold sizeIsValid in Hvalid. apply andb_true_iff in Hvalid as [Hw0 Hh0].
  apply Z.ltb_lt in Hw0, Hh0.
  rewrite (Z.mod_small width), (Z.mod_small height) in E by lia.
  cbv [bind ret getHwc putHwc devCall] in E. simpl in E.
  destruct ((0 <? mMaxVirtualDisplayDimension (hwc w)) &&
            ((mMaxVirtualDisplayDimension (hwc w) <? width) ||
             (mMaxVirtualDisplayDimension (hwc w) <? height))); [discriminate E|].
  subst hwcMirrorId.
  destruct (createVirtualDisplay_dev (dev w) width height format _)
    as [[[e f'] hid] ds'] eqn:Hcv. simpl.
  destruct (isNone e); simpl in E; [|discriminate E].
  injection E as <- <-.
  unfold fromVirtualDisplayId, fromPhysicalDisplayId, lookupDisplay.
  cbv [set_mDisplayData]. simpl.
  rewrite lookup_insert_eq. cbv [set_isVirtual recordWithDisplay].
  split; [destruct (mDisplayData (hwc w) !! displayId); reflexivity|].
  split; [destruct (mDisplayData (hwc w) !! displayId); reflexivity|].
  split; [|reflexivity].
  intros x Hx. rewrite lookup_insert_ne by congruence. reflexivity.
Qed.

End MoreProperties.


(** * Concrete runs *)

Module Witnesses.

(** A scripted device: fixed answers, identification data per handle. *)
Record Script := mkScript {
  sc_idData : Z -> Error * Z * list Z;
  sc_createVirtualDisplay : Error * Z * Z;
  sc_presentOrValidate : Error * Z * Z * Fence * Z;
  sc_releaseFences : Error * gmap Z Fence;
  sc_changedTypes : Error * gmap Z Z;
  sc_present : Error * option Fence
}.

#[local] Instance scriptComposer : Composer Script := {
  getDisplayIdentificationData_dev := fun s h => (sc_idData s h, s);
  createVirtualDisplay_dev := fun s _ _ _ _ => (sc_createVirtualDisplay s, s);
  presentOrValidate_dev := fun s _ => (sc_presentOrValidate s, s);
  validate_dev := fun s _ => ((NONE, 0, 0), s);
  getReleaseFences_dev := fun s _ => (sc_releaseFences s, s);
  getChangedCompositionTypes_dev := fun s _ => (sc_changedTypes s, s);
  getRequests_dev := fun s _ => ((NONE, 0, ∅), s);
  getClientTargetProperty_dev := fun s _ => ((NONE, (1, 0)), s);
  acceptChanges_dev := fun s _ => (NONE, s);
  present_dev := fun s _ => (sc_present s, s);
  executeCommands_dev := fun s => (NONE, s);
  setClientTarget_dev := fun s _ _ _ _ _ => (NONE, s)
}.

(** Handle 1 has no identification data, every other handle has some. *)
Definition idData (h : Z) : Error * Z * list Z :=
  if Z.eqb h 1 then (UNSUPPORTED, 0, []) else (NONE, 5, [0; 255; 255; 0]).

Definition script (state : Z) (changedTypesError releaseFencesError : Error) : Script :=
  mkScript idData (NONE, 1, 42) (NONE, 0, 0, FenceFd 7, state)
    (releaseFencesError, {[6 := FenceFd 4]}) (changedTypesError, ∅)
    (NONE, Some (FenceFd 9)).

Definition okScript : Script := script 0 NONE NONE.

(** Parser and port mapping used for the hotplug runs. *)
Definition parseT (port : Z) (_ : list Z) : option DisplayIdentificationInfo :=
  Some (mkDisplayIdentificationInfo (100 + port) "Panel"%string None).
Definition fromPortT (port : Z) : Z := 1000 + port.

Definition emptyHwc : HWComposer := mkHWComposer ∅ ∅ None None false 0 false.

(** Physical display 10 on handle 1. *)
Definition record10 (connected skipped : bool) : DisplayData :=
  mkDisplayData false (mkHwcDisplay 1 PHYSICAL connected) NO_FENCE
    {[5 := FenceFd 3]} skipped NONE false Vsync.DISABLE 0.

Definition hwc10 (connected skipped : bool) : HWComposer :=
  mkHWComposer {[10 := record10 connected skipped]} {[1 := 10]} (Some 1) None
    false 0 false.

Definition world10 (connected skipped : bool) (sc : Script) : @World Script :=
  mkWorld (hwc10 connected skipped) sc [].

Definition resWorld {A} (r : @Res Script A) : @World Script :=
  match r with Ret _ w => w | Fatal w => w end.

(** ** Runs used below *)

Definition w0 : @World Script := mkWorld emptyHwc okScript [].

(** C3 run: handle 1 connects without identification data (legacy mode),
    its identity is destroyed, then handle 2 connects with data. *)
Definition wLegacy : @World Script := resWorld (onHotplugConnect parseT fromPortT 1 w0).
Definition wDestroyed : @World Script := resWorld (disconnectDisplay 1000 wLegacy).
Definition wReconnected : @World Script :=
  resWorld (onHotplugConnect parseT fromPortT 2 wDestroyed).

(** ** Witnesses *)

Lemma getDeviceCompositionChanges_disconnected_witness :
  lookupDisplay (hwc (world10 false false okScript)) 10 = Some (record10 false false) /\
  hd_connected (hwcDisplay (record10 false false)) = false /\
  getDeviceCompositionChanges 10 None (world10 false false okScript)
    = Ret (NO_ERROR, None) (world10 false false okScript).
Proof.
  split; [reflexivity|]. split; [reflexivity|].
  apply (getDeviceCompositionChanges_disconnected (world10 false false okScript) 10
           (record10 false false) None); reflexivity.
Defined.

Lemma setClientTarget_skipped_witness :
  lookupDisplay (hwc (world10 true true okScript)) 10 = Some (record10 true true) /\
  validateWasSkipped (record10 true true) = true /\
  setClientTarget 10 0 (FenceFd 11) 77 0 (world10 true true okScript)
    = Ret NO_ERROR (world10 true true okScript).
Proof.
  split; [reflexivity|]. split; [reflexivity|].
  apply (setClientTarget_skipped (world10 true true okScript) 10 0 (FenceFd 11) 77 0
           (record10 true true)); reflexivity.
Defined.

Lemma getLayerReleaseFence_spec_witness :
  lookupDisplay (hwc10 true false) 10 = Some (record10 true false) /\
  getLayerReleaseFence (hwc10 true false) 10 5 = FenceFd 3 /\
  getLayerReleaseFence (hwc10 true false) 10 6 = NO_FENCE.
Proof.
  split; [reflexivity|]. split.
  - apply (proj2 (getLayerReleaseFence_spec (hwc10 true false) 10 5 (record10 true false)
                    ltac:(reflexivity))); reflexivity.
  - apply (proj1 (getLayerReleaseFence_spec (hwc10 true false) 10 6 (record10 true false)
                    ltac:(reflexivity))); reflexivity.
Defined.

Lemma committedNoChanges_skips_present_witness :
  lookupDisplay (hwc (world10 true false (script 1 NONE NONE))) 10
    = Some (record10 true false) /\
  hd_connected (hwcDisplay (record10 true false)) = true /\
  presentOrValidate_dev (dev (world10 true false (script 1 NONE NONE))) 1
    = ((NONE, 0, 0, FenceFd 7, 1), script 1 NONE NONE) /\
  exists w1, getDeviceCompositionChanges 10 None (world10 true false (script 1 NONE NONE))
               = Ret (NO_ERROR, None) w1 /\
    exists st w2, presentAndGetReleaseFences 10 0 0 w1 = Ret st w2 /\
      trace w2 = EvExecuteCommands :: trace w1.
Proof.
  split; [reflexivity|]. split; [reflexivity|]. split; [reflexivity|].
  destruct (committedNoChanges_skips_present (world10 true false (script 1 NONE NONE)) 10
              (record10 true false) None NONE 0 0 (FenceFd 7) (script 1 NONE NONE)
              ltac:(reflexivity) ltac:(reflexivity) ltac:(reflexivity) ltac:(reflexivity)) as (w1 & r1 & Hg & _ & _ & _ & Hp).
  exists w1. split; [exact Hg|].
  destruct (Hp 0 0) as (st & w2 & Hr & Ht & _).
  exists st, w2. split; [exact Hr | exact Ht].
Defined.

Lemma disconnect_destroys_bare_disconnect_keeps_witness :
  toPhysicalDisplayId (hwc (world10 true false okScript)) 1 = Some 10 /\
  is_Some (lookupDisplay (hwc (world10 true false okScript)) 10) /\
  exists (w' : @World Script) r',
    onHotplugDisconnect 1 (world10 true false okScript)
      = Ret (Some (mkDisplayIdentificationInfo 10 EmptyString None)) w' /\
    lookupDisplay (hwc w') 10 = Some r' /\ hd_connected (hwcDisplay r') = false.
Proof.
  split; [reflexivity|]. split; [eexists; reflexivity|].
  apply (proj2 (disconnect_destroys_bare_disconnect_keeps (world10 true false okScript) 10) 1);
    [reflexivity | eexists; reflexivity].
Defined.

Lemma onVsync_filters_duplicates_witness :
  toPhysicalDisplayId (hwc (world10 true false okScript)) 1 = Some 10 /\
  lookupDisplay (hwc (world10 true false okScript)) 10 = Some (record10 true false) /\
  isVirtual (record10 true false) = false /\
  onVsync 1 0 (world10 true false okScript) = Ret false (world10 true false okScript) /\
  exists w', onVsync 1 20 (world10 true false okScript) = Ret true w' /\
             onVsync 1 20 w' = Ret false w'.
Proof.
  split; [reflexivity|]. split; [reflexivity|]. split; [reflexivity|]. split.
  - apply (proj1 (onVsync_filters_duplicates (world10 true false okScript) 1 10 0
                    (record10 true false) ltac:(reflexivity) ltac:(reflexivity) ltac:(reflexivity))); reflexivity.
  - destruct (proj2 (onVsync_filters_duplicates (world10 true false okScript) 1 10 20
                       (record10 true false) ltac:(reflexivity) ltac:(reflexivity) ltac:(reflexivity)) ltac:(discriminate))
      as (w' & H1 & _ & _ & _ & H5).
    exists w'. split; [exact H1 | exact H5].
Defined.

Lemma allocateVirtualDisplay_spec_witness :
  -2 ^ 31 <= 1920 < 2 ^ 31 /\ -2 ^ 31 <= 1080 < 2 ^ 31 /\
  exists ok format' (w' : @World Script),
    allocateVirtualDisplay 5 1920 1080 1 None w0 = Ret (ok, format') w' /\
    (ok = true -> exists r, lookupDisplay (hwc w') 5 = Some r /\ isVirtual r = true).
Proof.
  split; [lia|]. split; [lia|].
  destruct (allocateVirtualDisplay_spec w0 5 1920 1080 1 None ltac:(lia) ltac:(lia))
    as (ok & f & w' & Hr & _ & _ & _ & Ht).
  exists ok, f, w'. split; [exact Hr|].
  intros Hok. destruct (Ht Hok) as [_ (r & Hl & Hv & _)].
  exists r. split; [exact Hl | exact Hv].
Defined.

Lemma acceptChanges_unless_committed_witness :
  exists st out new (w' : @World Script),
    getDeviceCompositionChanges 10 None (world10 true false (script 0 NONE NONE))
      = Ret (st, out) w' /\
    In (EvAcceptChanges 1) new /\
    (exists c, out = Some c) /\
    (forall ev, In ev new -> isPresentCall ev = false).
Proof.
  destruct (acceptChanges_unless_committed (world10 true false (script 0 NONE NONE)) 10
              (record10 true false) None NONE 0 0 (FenceFd 7) 0 (script 0 NONE NONE)
              NONE {[6 := FenceFd 4]} (script 0 NONE NONE) NONE ∅ (script 0 NONE NONE)
              NONE 0 ∅ (script 0 NONE NONE)
              ltac:(reflexivity) ltac:(reflexivity) ltac:(reflexivity) ltac:(reflexivity)
              ltac:(discriminate) ltac:(reflexivity) ltac:(discriminate)
              ltac:(reflexivity) ltac:(reflexivity))
    as (st & out & new & w' & Hr & _ & _ & Hiff & _ & Hok & Hn).
  exists st, out, new, w'. split; [exact Hr|]. split.
  - apply Hiff. split; [discriminate | split; reflexivity].
  - split; [exact (proj1 (Hok eq_refl)) | exact Hn].
Defined.

Lemma present_when_not_skipped_witness :
  lookupDisplay (hwc (world10 true false okScript)) 10 = Some (record10 true false) /\
  validateWasSkipped (record10 true false) = false /\
  present_dev okScript 1 = ((NONE, Some (FenceFd 9)), okScript) /\
  getReleaseFences_dev okScript 1 = ((NONE, {[6 := FenceFd 4]}), okScript) /\
  exists st (w' : @World Script) r',
    presentAndGetReleaseFences 10 100 SIGNAL_TIME_PENDING (world10 true false okScript)
      = Ret st w' /\
    lookupDisplay (hwc w') 10 = Some r' /\
    lastPresentFence r' = FenceFd 9 /\ releaseFences r' = {[6 := FenceFd 4]} /\
    st = NO_ERROR.
Proof.
  split; [reflexivity|]. split; [reflexivity|]. split; [reflexivity|]. split; [reflexivity|].
  destruct (present_when_not_skipped (world10 true false okScript) 10 100 SIGNAL_TIME_PENDING
              (record10 true false) NONE (Some (FenceFd 9)) okScript NONE {[6 := FenceFd 4]}
              okScript ltac:(reflexivity) ltac:(reflexivity) ltac:(reflexivity) ltac:(reflexivity))
    as (st & w' & r' & Hr & Hl & _ & Hf & Hst & Hrf).
  exists st, w', r'. split; [exact Hr|]. split; [exact Hl|].
  split; [exact Hf|]. split; [exact Hrf|].
  rewrite Hst. reflexivity.
Defined.

Lemma hotplugConnect_mode_witness :
  getDisplayIdentificationData_dev okScript 2 = ((NONE, 5, [0; 255; 255; 0]), okScript) /\
  exists res (w' : @World Script),
    onHotplugConnect parseT fromPortT 2 w0 = Ret res w' /\
    mHasMultiDisplaySupport (hwc w') = true.
Proof.
  split; [reflexivity|].
  destruct (@hotplugConnect_mode Script scriptComposer parseT fromPortT w0 2 NONE 5 [0; 255; 255; 0] okScript ltac:(reflexivity))
    as (res & w' & Hr & Hm & _).
  exists res, w'. split; [exact Hr|].
  rewrite Hm. vm_compute. reflexivity.
Defined.

(** ** Counterexamples *)

(** C3: legacy mode is not permanent. After the only legacy identity is
    destroyed no handle is mapped, and the next connection, with
    identification data, switches the resolver to generalized mode. *)
Lemma hotplug_legacy_mode_reselected :
  mHasMultiDisplaySupport (hwc wLegacy) = false /\
  mPhysicalDisplayIdMap (hwc wDestroyed) = ∅ /\
  mHasMultiDisplaySupport (hwc wReconnected) = true.
Proof.
  vm_compute. split; [reflexivity|]. split; reflexivity.
Qed.

(** C4: accepted timestamps need not increase: after 20, the earlier 5 is
    accepted too. *)
Lemma onVsync_accepts_earlier_timestamp :
  exists w1 w2 : @World Script,
    onVsync 1 20 (world10 true false okScript) = Ret true w1 /\
    onVsync 1 5 w1 = Ret true w2.
Proof.
  eexists _, _. split; reflexivity.
Qed.

(** C6: state 0 reaches the query path, but the composition-type query
    fails: BAD_INDEX is returned and acceptChanges is never called. *)
Lemma acceptChanges_skipped_on_query_error :
  exists w' : @World Script,
    getDeviceCompositionChanges 10 None (world10 true false (script 0 BAD_DISPLAY NONE))
      = Ret (BAD_INDEX, None) w' /\
    ~ In (EvAcceptChanges 1) (trace w') /\
    trace w' = [EvGetChangedCompositionTypes 1; EvPresentOrValidate 1].
Proof.
  exists (resWorld (getDeviceCompositionChanges 10 None
                     (world10 true false (script 0 BAD_DISPLAY NONE)))).
  vm_compute. split; [reflexivity|]. split; [intuition discriminate | reflexivity].
Qed.

(** C8: a successful present followed by a failing release-fence query
    keeps the old map: nothing overwrites it, UNKNOWN_ERROR is returned. *)
Lemma releaseFences_kept_on_query_error :
  exists w' : @World Script,
    presentAndGetReleaseFences 10 100 SIGNAL_TIME_PENDING
      (world10 true false (script 0 NONE BAD_DISPLAY)) = Ret UNKNOWN_ERROR w' /\
    In (EvPresent 1) (trace w') /\
    option_map releaseFences (lookupDisplay (hwc w') 10) = Some {[5 := FenceFd 3]}.
Proof.
  exists (resWorld (presentAndGetReleaseFences 10 100 SIGNAL_TIME_PENDING
                     (world10 true false (script 0 NONE BAD_DISPLAY)))).
  vm_compute. split; [reflexivity|]. split; [tauto | reflexivity].
Qed.

(** ** The rest of HWComposer *)

(** Fixed display-level answers: vsync and power changes accepted, no doze
    support (the query itself unsupported), active config 7, connection
    type query unsupported, period switching supported with a 60 Hz
    period, configs 1 and 2, every attribute 1080, the setters refusing
    their parameter, capabilities 1 and 2, and the metadata key "a" listed
    twice. *)
#[local] Instance scriptHal : DisplayHal Script := {
  setVsyncEnabled_dev := fun s _ _ => (NONE, s);
  supportsDoze_dev := fun s _ => ((UNSUPPORTED, false), s);
  setPowerMode_dev := fun s _ _ => (NONE, s);
  getActiveConfig_dev := fun s _ => ((NONE, 7), s);
  getConnectionType_dev := fun s _ => ((UNSUPPORTED, External), s);
  isVsyncPeriodSwitchSupported_dev := fun s _ => (true, s);
  getDisplayVsyncPeriod_dev := fun s _ => ((NONE, 16666667), s);
  getDisplayConfigs_dev := fun s _ => ((NONE, [1; 2]), s);
  getDisplayAttribute_dev := fun s _ _ _ => ((NONE, 1080), s);
  setAutoLowLatencyMode_dev := fun s _ _ => (BAD_PARAMETER, s);
  setContentType_dev := fun s _ _ => (BAD_PARAMETER, s);
  setDisplayContentSamplingEnabled_dev := fun s _ _ _ _ => (BAD_PARAMETER, s);
  setDisplayElapseTime_dev := fun s _ _ => (BAD_PARAMETER, s);
  getCapabilities_dev := fun s => ([1; 2], s);
  getLayerGenericMetadataKeys_dev :=
    fun s => ((NONE, [("a", true); ("b", false); ("a", false)]%string), s);
  composerIsVsyncPeriodSwitchSupported := fun _ => true;
  registerCallback_dev := fun s _ _ => s
}.

(** Display 10 on handle 2, in generalized mode. *)
Definition hwcMulti : HWComposer :=
  mkHWComposer {[10 := mkDisplayData false (mkHwcDisplay 2 PHYSICAL true) NO_FENCE
                         ∅ false NONE false Vsync.DISABLE 0]}
    {[2 := 10]} (Some 2) None true 0 false.

Definition worldMulti : @World Script := mkWorld hwcMulti okScript [].

Definition W10 : @World Script := world10 true false okScript.

Lemma allocatePhysicalDisplay_resolves_witness :
  exists w' : @World Script,
    allocatePhysicalDisplay 3 103 w0 = Ret tt w' /\
    toPhysicalDisplayId (hwc w') 3 = Some 103 /\
    fromPhysicalDisplayId (hwc w') 103 = Some 3.
Proof.
  destruct (allocatePhysicalDisplay_resolves w0 3 103) as (w' & E & H1 & H2 & _);
    [intros r Hr; vm_compute in Hr; discriminate Hr|].
  exists w'. split; [exact E|]. split; [exact H1 | exact H2].
Defined.

Lemma onVsync_after_disconnectDisplay_witness :
  onVsync 1 5 (resWorld (disconnectDisplay 10 W10))
    = Ret false (resWorld (disconnectDisplay 10 W10)).
Proof.
  apply (onVsync_after_disconnectDisplay W10 (resWorld (disconnectDisplay 10 W10)) 10 5
           (record10 true false)); reflexivity.
Defined.

Lemma hotplug_disconnect_reconnect_replaces_display_witness :
  exists i1 i2 (w1 w2 : @World Script),
    onHotplugDisconnect 1 W10 = Ret (Some i1) w1 /\
    onHotplugConnect parseT fromPortT 1 w1 = Ret (Some i2) w2 /\
    lookupDisplay (hwc w2) 10
      = Some (set_hwcDisplay (mkHwcDisplay 1 PHYSICAL true) (record10 true false)).
Proof.
  destruct (hotplug_disconnect_reconnect_replaces_display parseT fromPortT W10 1 10
              (record10 true false) ltac:(reflexivity) ltac:(reflexivity))
    as (i1 & i2 & w1 & w2 & A & B & _ & _ & C & _).
  exists i1, i2, w1, w2. split; [exact A|]. split; [exact B | exact C].
Defined.

Lemma hotplugConnect_generalized_requires_data_witness :
  exists w' : @World Script,
    onHotplugConnect parseT fromPortT 1 worldMulti = Ret None w' /\
    hwc w' = hwc worldMulti.
Proof.
  apply (hotplugConnect_generalized_requires_data parseT fromPortT worldMulti 1
           UNSUPPORTED 0 [] okScript); try reflexivity.
  intros Hc. pose proof (f_equal (fun m : gmap Z Z => m !! 2) Hc) as Hx.
  vm_compute in Hx. discriminate Hx.
Defined.

Lemma hotplugConnect_generalized_binds_witness :
  exists w' : @World Script,
    onHotplugConnect parseT fromPortT 2 w0
      = Ret (Some (mkDisplayIdentificationInfo 105 "Panel" None)) w' /\
    toPhysicalDisplayId (hwc w') 2 = Some 105.
Proof.
  destruct (hotplugConnect_generalized_binds parseT fromPortT w0 2 5 [0; 255; 255; 0]
              okScript (mkDisplayIdentificationInfo 105 "Panel" None))
    as (w' & A & B & _); try reflexivity;
    [left; reflexivity | intros r Hr; vm_compute in Hr; discriminate Hr |].
  exists w'. split; [exact A | exact B].
Defined.

Lemma unknown_display_frame_bad_index_witness :
  setPowerMode 11 ON W10 = Ret BAD_INDEX W10 /\
  presentAndGetReleaseFences 11 0 0 W10 = Ret BAD_INDEX W10.
Proof.
  destruct (unknown_display_frame_bad_index W10 11 ltac:(reflexivity))
    as (_ & _ & A & B).
  split; [apply B | apply A].
Defined.

Lemma unknown_display_setters_bad_index_witness :
  setContentType 11 3 W10 = Ret BAD_INDEX W10 /\
  setDisplayElapseTime 11 0 W10 = Ret BAD_INDEX W10.
Proof.
  destruct (unknown_display_setters_bad_index W10 11 ltac:(reflexivity))
    as (_ & A & _ & B).
  split; [apply A | apply B].
Defined.

Lemma unknown_display_query_defaults_witness :
  getModes 11 W10 = Ret [] W10 /\ getDisplayConnectionType 11 W10 = Ret Internal W10.
Proof.
  destruct (unknown_display_query_defaults W10 11 ltac:(reflexivity))
    as (A & _ & B & _).
  split; [exact A | exact B].
Defined.

Lemma setVsyncEnabled_stores_on_success_witness :
  setVsyncEnabled 10 Vsync.DISABLE W10 = Ret tt W10 /\
  setVsyncEnabled 10 Vsync.ENABLE W10 =
    Ret tt (mkWorld (set_mDisplayData
                       (<[10 := set_vsyncEnabled Vsync.ENABLE (record10 true false)]>
                          (mDisplayData (hwc W10))) (hwc W10))
              okScript [EvTraceVsyncOn 10 true]).
Proof.
  split.
  - apply (proj1 (setVsyncEnabled_stores_on_success W10 10 Vsync.DISABLE (record10 true false)
                    ltac:(reflexivity) ltac:(reflexivity))).
    reflexivity.
  - apply (proj2 (setVsyncEnabled_stores_on_success W10 10 Vsync.ENABLE (record10 true false)
                    ltac:(reflexivity) ltac:(reflexivity)) ltac:(discriminate)
             NONE okScript).
    reflexivity.
Defined.

Lemma setPowerMode_always_no_error_witness :
  exists w' : @World Script, setPowerMode 10 OFF W10 = Ret NO_ERROR w' /\ hwc w' = hwc W10.
Proof.
  destruct (setPowerMode_always_no_error W10 10 OFF (record10 true false)
              ltac:(reflexivity) ltac:(reflexivity)) as (w' & A & B & _).
  exists w'. split; [exact A | exact B].
Defined.

Lemma setPowerMode_doze_fallback_witness :
  setPowerMode 10 DOZE W10 =
    Ret NO_ERROR (mkWorld (hwc W10) (snd (setPowerMode_dev okScript 1 ON)) []).
Proof.
  apply (setPowerMode_doze_fallback W10 10 DOZE (record10 true false) UNSUPPORTED false
           okScript); [reflexivity | reflexivity | left; reflexivity | reflexivity].
Defined.

Lemma display_setters_translate_errors_witness :
  setContentType 10 3 W10 = Ret BAD_VALUE (mkWorld (hwc W10) okScript []).
Proof.
  pose proof (display_setters_translate_errors W10 10 (record10 true false)
                ltac:(reflexivity)) as Ht.
  cbv zeta in Ht. destruct Ht as (_ & B & _).
  apply (B 3 BAD_PARAMETER okScript). reflexivity.
Defined.

Lemma getActiveMode_only_bad_config_fails_witness :
  getActiveMode 10 W10 = Ret (Some 7) (mkWorld (hwc W10) okScript []).
Proof.
  destruct (getActiveMode_only_bad_config_fails W10 10 (record10 true false) NONE 7 okScript
              ltac:(reflexivity) ltac:(reflexivity) ltac:(reflexivity))
    as (res & E & _ & Hs).
  rewrite (Hs ltac:(discriminate)) in E. exact E.
Defined.

Lemma getDisplayConnectionType_fallback_witness :
  getDisplayConnectionType 10 W10 = Ret Internal (mkWorld (hwc W10) okScript []).
Proof.
  destruct (getDisplayConnectionType_fallback W10 10 (record10 true false) UNSUPPORTED
              External okScript ltac:(reflexivity) ltac:(reflexivity))
    as (res & E & _ & Hf).
  assert (Hres : res = Internal) by (apply (Hf ltac:(discriminate)); reflexivity).
  rewrite Hres in E. exact E.
Defined.

Lemma getDisplayVsyncPeriod_spec_witness :
  getDisplayVsyncPeriod 10 W10 =
    Ret (NO_ERROR, Some 16666667) (mkWorld (hwc W10) okScript []).
Proof.
  apply (proj2 (getDisplayVsyncPeriod_spec W10 10 (record10 true false) true okScript
                  NONE 16666667 okScript ltac:(reflexivity) ltac:(reflexivity)
                  ltac:(reflexivity) ltac:(reflexivity))).
  reflexivity.
Defined.

Lemma getModes_one_mode_per_config_witness :
  exists ms (w' : @World Script), getModes 10 W10 = Ret ms w' /\ map hwcId ms = [1; 2].
Proof.
  destruct (getModes_one_mode_per_config W10 10 10 (record10 true false) NONE [1; 2]
              okScript ltac:(reflexivity) ltac:(reflexivity) ltac:(reflexivity))
    as (ms & w' & E & _ & _ & _ & Hids).
  exists ms, w'. split; [exact E | apply Hids; reflexivity].
Defined.

Lemma loadLayerMetadataSupport_first_wins_witness :
  exists cs',
    loadLayerMetadataSupport (mkCallbackState ∅ ∅ false) okScript = (cs', okScript) /\
    mSupportedLayerGenericMetadata cs' !! "a"%string = Some true.
Proof.
  destruct (loadLayerMetadataSupport_first_wins (H0 := scriptHal) (mkCallbackState ∅ ∅ false) okScript NONE
              [("a", true); ("b", false); ("a", false)]%string okScript ltac:(reflexivity))
    as (cs' & E & _ & _ & _ & Hok).
  exists cs'. split; [exact E|].
  destruct (Hok eq_refl) as [_ Hf].
  apply (Hf [] "a"%string true [("b", false); ("a", false)]%string);
    [reflexivity | simpl; apply not_elem_of_nil].
Defined.

Lemma skipped_frame_keeps_fast_path_fences_witness :
  exists (w1 : @World Script) st (w2 : @World Script),
    getDeviceCompositionChanges 10 None (world10 true false (script 1 NONE BAD_DISPLAY))
      = Ret (NO_ERROR, None) w1 /\
    presentAndGetReleaseFences 10 0 0 w1 = Ret st w2 /\
    getPresentFence (hwc w2) 10 = FenceFd 7 /\
    getLayerReleaseFence (hwc w2) 10 6 = FenceFd 4.
Proof.
  destruct (skipped_frame_keeps_fast_path_fences (world10 true false (script 1 NONE BAD_DISPLAY))
              10 (record10 true false) None NONE 0 0 (FenceFd 7) (script 1 NONE BAD_DISPLAY)
              BAD_DISPLAY {[6 := FenceFd 4]} (script 1 NONE BAD_DISPLAY) 0 0
              ltac:(reflexivity) ltac:(reflexivity) ltac:(reflexivity)
              (or_introl eq_refl) ltac:(reflexivity))
    as (w1 & st & w2 & A & B & C & D).
  exists w1, st, w2. split; [exact A|]. split; [exact B|]. split; [exact C|].
  rewrite D. reflexivity.
Defined.

Lemma allocateVirtualDisplay_binds_virtual_handle_witness :
  fromVirtualDisplayId (hwc (resWorld (allocateVirtualDisplay 200 1920 1080 1 None w0))) 200
    = Some 42.
Proof.
  assert (E : allocateVirtualDisplay 200 1920 1080 1 None w0
              = Ret (true, 1) (resWorld (allocateVirtualDisplay 200 1920 1080 1 None w0)))
    by (vm_compute; reflexivity).
  pose proof (allocateVirtualDisplay_binds_virtual_handle w0 200 1920 1080 1 None 1
                (resWorld (allocateVirtualDisplay 200 1920 1080 1 None w0))
                ltac:(lia) ltac:(lia) E) as Ht.
  cbv zeta in Ht. destruct Ht as [A _]. exact A.
Defined.

End Witnesses.

End HWC.
